(** * FreshBites: supplier reliability and raw-material availability

    A shallow embedding of the scoring and decision logic of
    [src/freshbites/app.py].

    Modelling conventions.
    - A pandas data frame is a header (the column names that are present)
      and a list of rows; every vectorised column expression of the script
      is element-wise and index-aligned, so it is written here as a
      function of one row.
    - A numeric cell is a finite number or NaN (a blank CSV cell):
      [cell := option Q].  Numbers are exact rationals: binary64 rounding,
      overflow and the sign of zero are not modelled.  The infinities occur
      only as results of a division, which has its own result type.
    - A Python [dict] is a [gmap] with string keys.
    - [Series.fillna(0, inplace=True)] on a selected column updates the
      frame, as it does without copy-on-write.
    - An integer column is int64: [.astype(int)] and the sum of such a
      column are modelled with their 64-bit range. *)

From Stdlib Require Import ZArith QArith Qround Lqa Lia.
From stdpp Require Import base option list strings pretty gmap.

Local Open Scope Q_scope.

(** ** Numbers *)

(** A float64 cell read from a CSV: a number, or NaN ([None]). *)
Abbreviation cell := (option Q).

(** The result of a float division, before the infinities are replaced. *)
Inductive xnum : Type :=
| XFin (q : Q)
| XPInf
| XNInf
| XNaN.

Definition Qltb (x y : Q) : bool := negb (Qle_bool y x).

(** [a / b] on float64 cells (IEEE 754: x/0 is an infinity of the sign of x,
    0/0 is NaN, NaN is contagious). *)
Definition fdiv (a b : cell) : xnum :=
  match a, b with
  | Some x, Some y =>
      if Qeq_bool y 0 then
        if Qeq_bool x 0 then XNaN
        else if Qltb 0 x then XPInf else XNInf
      else XFin (x / y)
  | _, _ => XNaN
  end.

(** [.replace([np.inf, -np.inf], np.nan)] *)
Definition replace_inf (v : xnum) : cell :=
  match v with
  | XFin q => Some q
  | XPInf | XNInf | XNaN => None
  end.

(** [.fillna(d)] *)
Definition fillna (d : Q) (c : cell) : Q :=
  match c with
  | Some q => q
  | None => d
  end.

(** Element-wise arithmetic on cells; NaN is contagious. *)
Definition cadd (a b : cell) : cell :=
  match a, b with Some x, Some y => Some (x + y) | _, _ => None end.
Definition csub (a b : cell) : cell :=
  match a, b with Some x, Some y => Some (x - y) | _, _ => None end.
Definition cmul (a b : cell) : cell :=
  match a, b with Some x, Some y => Some (x * y) | _, _ => None end.

(** Comparisons with a NaN operand are false. *)
Definition clt (a b : cell) : bool :=
  match a, b with Some x, Some y => Qltb x y | _, _ => false end.
Definition cle (a b : cell) : bool :=
  match a, b with Some x, Some y => Qle_bool x y | _, _ => false end.

(** [.clip(lower=l)]: on a number, and on a cell (NaN stays NaN). *)
Definition clip_lower (l x : Q) : Q := if Qltb x l then l else x.
Definition cclip_lower (l : Q) (c : cell) : cell := clip_lower l <$> c.

(** [round(0)]: numpy rounds to the nearest integer, ties to the even one. *)
Definition round_half_even (x : Q) : Z :=
  let f := Qfloor x in
  match Qcompare (x - inject_Z f) (1 # 2) with
  | Lt => f
  | Gt => (f + 1)%Z
  | Eq => if Z.even f then f else (f + 1)%Z
  end.

(** The range of an int64 column. *)
Definition int64_min : Z := (- 2 ^ 63)%Z.
Definition int64_max : Z := (2 ^ 63 - 1)%Z.

(** [.astype(int)] of a float64 that holds a whole number: the number itself
    when it fits int64.  Outside that range numpy's cast is the machine
    conversion, which on x86-64 returns the smallest int64. *)
Definition astype_int64 (z : Z) : Z :=
  if (int64_min <=? z)%Z && (z <=? int64_max)%Z then z else int64_min.

(** Two's complement wrap-around of int64 arithmetic. *)
Definition wrap_int64 (z : Z) : Z := ((z + 2 ^ 63) mod 2 ^ 64 - 2 ^ 63)%Z.

(** [.round(2)]: scale by 100, round, scale back. *)
Definition round2 (x : Q) : Q := inject_Z (round_half_even (x * 100)) / 100.

(** ** Supplier scorer *)

Record SupplierRecord : Type := mkSupplier {
  supplier_id : string;
  supplier_name : string;
  total_deliveries : cell;
  on_time_deliveries : cell;
  avg_lead_time_days : cell;
  price_index : cell;
  priority : string;
  is_backup : bool
}.

(** [(on_time / total).replace([inf, -inf], nan).fillna(0.0) * 100] *)
Definition reliability_pct (s : SupplierRecord) : Q :=
  fillna 0 (replace_inf (fdiv (on_time_deliveries s) (total_deliveries s))) * 100.

(** [pd.cut(x, bins, labels)] with the default [right=True] and
    [include_lowest=False]: label [i] is given to the values of the interval
    (bins[i], bins[i+1]]; a value in no interval gets NaN ([None]). *)
Fixpoint pd_cut (bins : list Q) (labels : list string) (x : Q) : option string :=
  match bins, labels with
  | lo :: ((hi :: _) as rest), lab :: labels' =>
      if Qltb lo x && Qle_bool x hi then Some lab
      else pd_cut rest labels' x
  | _, _ => None
  end.

Definition band_bins : list Q := [- (1 # 10); 7499 # 100; 8999 # 100; 100].
Definition band_labels : list string :=
  ["Risk (<75%)"; "Watch (75-89%)"; "Reliable (90%+)"]%string.

Definition reliability_band_of (pct : Q) : option string :=
  pd_cut band_bins band_labels pct.

Definition reliability_band (s : SupplierRecord) : option string :=
  reliability_band_of (reliability_pct s).

(** The supplier table after [reliability_pct] and [reliability_band] have
    been added as columns. *)
Record ScoredSupplier : Type := mkScored {
  sup : SupplierRecord;
  sup_reliability_pct : Q;
  sup_reliability_band : option string
}.

Definition score (s : SupplierRecord) : ScoredSupplier :=
  {| sup := s;
     sup_reliability_pct := reliability_pct s;
     sup_reliability_band := reliability_band s |}.

(** [dict(zip(keys, values))]: a later pair overwrites an earlier one with
    the same key. *)
Definition dict_zip {V : Type} (ks : list string) (vs : list V) : gmap string V :=
  foldl (fun m kv => <[kv.1 := kv.2]> m) ∅ (zip ks vs).

Definition rel_map (ss : list ScoredSupplier) : gmap string Q :=
  dict_zip (map (fun s => supplier_name (sup s)) ss) (map sup_reliability_pct ss).

Definition lt_map (ss : list ScoredSupplier) : gmap string cell :=
  dict_zip (map (fun s => supplier_name (sup s)) ss)
           (map (fun s => avg_lead_time_days (sup s)) ss).

(** [series.map(d)] for one key: NaN when the key is not in the dict. *)
Definition map_num (d : gmap string Q) (k : string) : cell := d !! k.
Definition map_cell (d : gmap string cell) (k : string) : cell := mjoin (d !! k).

(** ** Inventory health engine *)

Record InventoryRecord : Type := mkInventory {
  material : string;
  current_stock : cell;
  safety_stock : cell;
  avg_daily_usage : cell;
  primary_supplier : string;
  backup_supplier : string;
  lead_time_days : cell
}.

Definition isna (c : cell) : bool :=
  match c with Some _ => false | None => true end.

(** [np.where(cond, a, b)] for one element. *)
Definition np_where {A : Type} (cond : bool) (a b : A) : A := if cond then a else b.

Section Health.
Variable rels : gmap string Q.
Variable leads : gmap string cell.
Variable r : InventoryRecord.

Definition primary_reliability : Q := fillna 0 (map_num rels (primary_supplier r)).
Definition backup_reliability : Q := fillna 0 (map_num rels (backup_supplier r)).

(** The [lead_time_days] column after the fallback to the supplier's lead
    time. *)
Definition effective_lead_time : cell :=
  np_where (isna (lead_time_days r) || cle (lead_time_days r) (Some 0))
           (Some (fillna 5 (map_cell leads (primary_supplier r))))
           (lead_time_days r).

Definition days_of_cover : Q :=
  fillna 0 (replace_inf (fdiv (current_stock r) (avg_daily_usage r))).

(** [reorder_point] and [current_stock] after [fillna(0)]. *)
Definition reorder_point : Q :=
  fillna 0 (cadd (safety_stock r) (cmul effective_lead_time (avg_daily_usage r))).
Definition current_stock_filled : Q := fillna 0 (current_stock r).

(** [(reorder_point - current_stock).clip(lower=0).round(0)], still a
    float64 column, and the [reorder_qty] column after [.astype(int)]. *)
Definition rounded_shortfall : Z :=
  round_half_even (clip_lower 0 (reorder_point - current_stock_filled)).
Definition reorder_qty : Z := astype_int64 rounded_shortfall.

Definition stock_risk : string :=
  np_where (clt (Some current_stock_filled) (safety_stock r)) "Low Stock" "OK".
Definition supply_risk : string :=
  np_where (Qltb primary_reliability 75) "Unreliable Supplier" "OK".
Definition overall_risk : string :=
  np_where (negb (String.eqb stock_risk "OK") || negb (String.eqb supply_risk "OK"))
           "⚠ Risk" "✅ OK".
End Health.

(** A row of [inv] once every derived column has been assigned
    ([current_stock] and [lead_time_days] have been overwritten in place). *)
Record HealthRow : Type := mkHealthRow {
  row_material : string;
  row_current_stock : Q;
  row_safety_stock : cell;
  row_avg_daily_usage : cell;
  row_primary_supplier : string;
  row_backup_supplier : string;
  row_lead_time_days : cell;
  row_primary_reliability : Q;
  row_backup_reliability : Q;
  row_days_of_cover : Q;
  row_reorder_point : Q;
  row_reorder_qty : Z;
  row_stock_risk : string;
  row_supply_risk : string;
  row_overall_risk : string
}.

Definition health (rels : gmap string Q) (leads : gmap string cell)
    (r : InventoryRecord) : HealthRow :=
  {| row_material := material r;
     row_current_stock := current_stock_filled r;
     row_safety_stock := safety_stock r;
     row_avg_daily_usage := avg_daily_usage r;
     row_primary_supplier := primary_supplier r;
     row_backup_supplier := backup_supplier r;
     row_lead_time_days := effective_lead_time leads r;
     row_primary_reliability := primary_reliability rels r;
     row_backup_reliability := backup_reliability rels r;
     row_days_of_cover := days_of_cover r;
     row_reorder_point := reorder_point leads r;
     row_reorder_qty := reorder_qty leads r;
     row_stock_risk := stock_risk r;
     row_supply_risk := supply_risk rels r;
     row_overall_risk := overall_risk rels r |}.

(** ** Recommendation text *)

Section Recommend.
Local Open Scope string_scope.

(** Python's float formatting is not part of the repository:
    [format_1f] stands for [f"{x:.1f}"] and [format_float] for [f"{x}"]. *)
Variable format_1f : Q -> string.
Variable format_float : cell -> string.

(** The supplier named in the reorder sentence. *)
Definition reorder_target (row : HealthRow) : string :=
  if Qltb (row_primary_reliability row) (row_backup_reliability row)
  then row_backup_supplier row +:+ " (backup)"
  else row_primary_supplier row.

Definition reorder_sentence (row : HealthRow) : string :=
  "Reorder " +:+ pretty (row_reorder_qty row) +:+ " units of "
    +:+ row_material row +:+ " from " +:+ reorder_target row +:+ ".".

Definition switch_sentence (row : HealthRow) : string :=
  "Switch supplier for " +:+ row_material row +:+ " to "
    +:+ row_backup_supplier row +:+ " (more reliable).".

Definition keep_sentence (row : HealthRow) : string :=
  "Keep primary for " +:+ row_material row
    +:+ " but increase safety stock temporarily.".

Definition cover_sentence (row : HealthRow) : string :=
  "Increase safety stock for " +:+ row_material row +:+ " (days of cover "
    +:+ format_1f (row_days_of_cover row) +:+ " < lead time "
    +:+ format_float (row_lead_time_days row) +:+ ").".

(** What each of the three [if] statements of [recommend] appends. *)
Definition reorder_recs (row : HealthRow) : list string :=
  if Qltb (row_current_stock row) (row_reorder_point row)
  then [reorder_sentence row] else [].

Definition reliability_recs (row : HealthRow) : list string :=
  if Qltb (row_primary_reliability row) 75 then
    if Qltb (row_primary_reliability row) (row_backup_reliability row)
    then [switch_sentence row] else [keep_sentence row]
  else [].

Definition cover_recs (row : HealthRow) : list string :=
  if clt (Some (row_days_of_cover row)) (row_lead_time_days row)
  then [cover_sentence row] else [].

(** The list [recs] when [recommend] returns. *)
Definition recs_of (row : HealthRow) : list string :=
  (([] ++ reorder_recs row) ++ reliability_recs row) ++ cover_recs row.

Definition recommend (row : HealthRow) : string :=
  match recs_of row with
  | [] => "No action needed."
  | recs => String.concat " " recs
  end.
End Recommend.

(** ** The script as a whole *)

(** A data frame: the names of the columns that are present, and the rows.
    The row type has a field for every required column; a field of a
    column that is absent from the header is never read, because the run
    stops at the validation. *)
Record frame (R : Type) : Type := mkFrame {
  columns : list string;
  rows : list R
}.
Arguments mkFrame {R} _ _.
Arguments columns {R} _.
Arguments rows {R} _.

Definition required_sup_cols : gset string :=
  list_to_set ["supplier_id"; "supplier_name"; "total_deliveries";
               "on_time_deliveries"; "avg_lead_time_days"; "price_index";
               "priority"; "is_backup"]%string.

Definition required_inv_cols : gset string :=
  list_to_set ["material"; "current_stock"; "safety_stock"; "avg_daily_usage";
               "primary_supplier"; "backup_supplier"; "lead_time_days"]%string.

(** [required.issubset(set(df.columns))] *)
Definition issubset (required : gset string) (cols : list string) : bool :=
  bool_decide (required ⊆ list_to_set cols).

(** The required columns that a header lacks. *)
Definition missing_columns (required : gset string) (cols : list string) : list string :=
  filter (fun c => c ∉ cols) (elements required).

Definition schema_error_message : string :=
  "Please provide valid CSVs with required columns (see sidebar).".

(** "Simulate delay for Supplier B": two on-time deliveries fewer, not below 0. *)
Definition apply_sim_delay (sim_delay : bool) (ss : list SupplierRecord)
    : list SupplierRecord :=
  if sim_delay && bool_decide ("Supplier B"%string ∈ map supplier_name ss) then
    map (fun s =>
           if String.eqb (supplier_name s) "Supplier B" then
             mkSupplier (supplier_id s) (supplier_name s) (total_deliveries s)
               (cclip_lower 0 (csub (on_time_deliveries s) (Some 2)))
               (avg_lead_time_days s) (price_index s) (priority s) (is_backup s)
           else s) ss
  else ss.

(** "Simulate demand spike for Flour": usage times 1.3, rounded to 2 places. *)
Definition apply_sim_demand_spike (sim_demand_spike : bool)
    (rs : list InventoryRecord) : list InventoryRecord :=
  if sim_demand_spike && bool_decide ("Flour"%string ∈ map material rs) then
    map (fun r =>
           if String.eqb (material r) "Flour" then
             mkInventory (material r) (current_stock r) (safety_stock r)
               (round2 <$> cmul (avg_daily_usage r) (Some (13 # 10)))
               (primary_supplier r) (backup_supplier r) (lead_time_days r)
           else r) rs
  else rs.

Definition Qsum (l : list Q) : Q := foldr Qplus 0 l.
Definition Zsum (l : list Z) : Z := foldr Z.add 0%Z l.

(** [Series.sum()] of an int64 column: the sum wraps around. *)
Definition int64_sum (l : list Z) : Z := wrap_int64 (Zsum l).

(** [Series.mean()]: NaN on an empty series. *)
Definition mean (l : list Q) : cell :=
  match l with
  | [] => None
  | _ => Some (Qsum l / inject_Z (Z.of_nat (length l)))
  end.

(** Everything the script shows after a successful validation. *)
Record output : Type := mkOutput {
  out_suppliers : list ScoredSupplier;
  out_inventory : list (HealthRow * string);
  kpi_suppliers : nat;
  kpi_avg_reliability : cell;
  kpi_at_risk : nat;
  kpi_total_reorder : Z;
  out_recommendations : list (string * string)
}.

Inductive outcome : Type :=
| Stopped (error : string)
| Rendered (out : output).

Section Run.
Variable format_1f : Q -> string.
Variable format_float : cell -> string.

(** The computation after the validation and the simulations. *)
Definition engine (suppliers : list SupplierRecord)
    (inventory : list InventoryRecord) : output :=
  let scored := map score suppliers in
  let rels := rel_map scored in
  let leads := lt_map scored in
  let inv := map (health rels leads) inventory in
  let inv := map (fun row => (row, recommend format_1f format_float row)) inv in
  {| out_suppliers := scored;
     out_inventory := inv;
     kpi_suppliers := length scored;
     kpi_avg_reliability := mean (map sup_reliability_pct scored);
     kpi_at_risk :=
       length (filter (fun p => row_overall_risk p.1 ≠ "✅ OK"%string) inv);
     kpi_total_reorder := int64_sum (map (fun p => row_reorder_qty p.1) inv);
     out_recommendations := map (fun p => (row_material p.1, p.2)) inv |}.

Definition run (sim_delay sim_demand_spike : bool)
    (suppliers : frame SupplierRecord) (inventory : frame InventoryRecord)
    : outcome :=
  if negb (issubset required_sup_cols (columns suppliers))
     || negb (issubset required_inv_cols (columns inventory))
  then Stopped schema_error_message
  else
    Rendered (engine (apply_sim_delay sim_delay (rows suppliers))
                     (apply_sim_demand_spike sim_demand_spike (rows inventory))).
End Run.

(** The tables used when the default CSV files cannot be read
    ([except Exception]): the required columns and no rows. *)
Definition default_suppliers_fallback : frame SupplierRecord :=
  mkFrame ["supplier_id"; "supplier_name"; "total_deliveries";
           "on_time_deliveries"; "avg_lead_time_days"; "price_index";
           "priority"; "is_backup"]%string [].

Definition default_inventory_fallback : frame InventoryRecord :=
  mkFrame ["material"; "current_stock"; "safety_stock"; "avg_daily_usage";
           "primary_supplier"; "backup_supplier"; "lead_time_days"]%string [].

(** ** Sample data *)

Module Sample.
Local Open Scope string_scope.

Definition sup_cols : list string :=
  ["supplier_id"; "supplier_name"; "total_deliveries"; "on_time_deliveries";
   "avg_lead_time_days"; "price_index"; "priority"; "is_backup"].

Definition inv_cols : list string :=
  ["material"; "current_stock"; "safety_stock"; "avg_daily_usage";
   "primary_supplier"; "backup_supplier"; "lead_time_days"].

Definition supplier_a : SupplierRecord :=
  mkSupplier "S1" "Supplier A" (Some 20) (Some 19) (Some 3) (Some 1) "1" false.

Definition supplier_b : SupplierRecord :=
  mkSupplier "S2" "Supplier B" (Some 20) (Some 18) (Some 4) (Some 1) "2" true.

(** More on-time deliveries than deliveries. *)
Definition supplier_over : SupplierRecord :=
  mkSupplier "S3" "Supplier C" (Some 2) (Some 3) (Some 2) (Some 1) "3" true.

(** A negative count of on-time deliveries. *)
Definition supplier_neg : SupplierRecord :=
  mkSupplier "S4" "Supplier D" (Some 20) (Some (-1)) (Some 2) (Some 1) "3" true.

(** Half of the deliveries on time. *)
Definition supplier_poor : SupplierRecord :=
  mkSupplier "S7" "Supplier G" (Some 20) (Some 10) (Some 6) (Some 1) "3" true.

(** No deliveries yet, lead time not recorded. *)
Definition supplier_new : SupplierRecord :=
  mkSupplier "S5" "Supplier E" (Some 0) (Some 0) None (Some 1) "3" true.

Definition roster : list SupplierRecord := [supplier_a; supplier_b].

Definition flour : InventoryRecord :=
  mkInventory "Flour" (Some 50) (Some 20) (Some 10) "Supplier A" "Supplier B" (Some 3).

(** Stock a quarter of a unit below the reorder point of 50. *)
Definition flour_just_below : InventoryRecord :=
  mkInventory "Flour" (Some (199 # 4)) (Some 20) (Some 10)
              "Supplier A" "Supplier B" (Some 3).

(** Primary supplier less reliable than the backup. *)
Definition sugar : InventoryRecord :=
  mkInventory "Sugar" (Some 10) (Some 20) (Some 5) "Supplier B" "Supplier A" None.

(** Primary supplier not in the roster. *)
Definition yeast : InventoryRecord :=
  mkInventory "Yeast" (Some 10) (Some 2) (Some 1) "Supplier Z" "Supplier A" (Some 0).

(** 74.995 percent on time: between the bin edge 74.99 and the risk
    threshold 75. *)
Definition supplier_edge : SupplierRecord :=
  mkSupplier "S6" "Supplier F" (Some 20000) (Some 14999) (Some 2) (Some 1) "2" false.

Definition salt : InventoryRecord :=
  mkInventory "Salt" (Some 30) (Some 5) (Some 2) "Supplier F" "Supplier A" (Some 2).


(** A material that is not consumed at present. *)
Definition saffron : InventoryRecord :=
  mkInventory "Saffron" (Some 4) (Some 1) (Some 0) "Supplier A" "Supplier B" (Some 3).

(** Formatters to instantiate the examples with; they print the integer
    part only, and no property below depends on what they print. *)
Definition show_1f (q : Q) : string := pretty (Qfloor q).
Definition show_float (c : cell) : string :=
  match c with Some q => pretty (Qfloor q) | None => "nan" end.
End Sample.

(** * Properties *)

(** ** Comparisons and rounding *)

Lemma Qltb_lt (x y : Q) : Qltb x y = true <-> x < y.
Proof.
  unfold Qltb. rewrite negb_true_iff, <- not_true_iff_false, Qle_bool_iff.
  split; [apply Qnot_le_lt | apply Qlt_not_le].
Qed.

Lemma Qltb_ge (x y : Q) : Qltb x y = false <-> y <= x.
Proof.
  unfold Qltb. rewrite negb_false_iff. apply Qle_bool_iff.
Qed.

Lemma Qle_bool_gt (x y : Q) : Qle_bool x y = false <-> y < x.
Proof.
  rewrite <- not_true_iff_false, Qle_bool_iff.
  split; [apply Qnot_le_lt | apply Qlt_not_le].
Qed.

Lemma Qeq_bool_false (x y : Q) : Qeq_bool x y = false <-> ~ x == y.
Proof.
  rewrite <- not_true_iff_false, Qeq_bool_iff. reflexivity.
Qed.

(** Case analysis on the boolean tests of the model, leaving the facts about
    the numbers in the context. *)
Ltac case_cmp :=
  match goal with
  | |- context [Qltb ?x ?y] =>
      let E := fresh "E" in
      destruct (Qltb x y) eqn:E;
      [apply Qltb_lt in E | apply Qltb_ge in E]
  | |- context [Qle_bool ?x ?y] =>
      let E := fresh "E" in
      destruct (Qle_bool x y) eqn:E;
      [apply Qle_bool_iff in E | apply Qle_bool_gt in E]
  | |- context [Qeq_bool ?x ?y] =>
      let E := fresh "E" in
      destruct (Qeq_bool x y) eqn:E;
      [apply Qeq_bool_iff in E | apply Qeq_bool_false in E]
  end.

Lemma round_half_even_nonneg (x : Q) : 0 <= x -> (0 <= round_half_even x)%Z.
Proof.
  intros Hx. unfold round_half_even.
  assert (0 <= Qfloor x)%Z as Hf.
  { change 0%Z with (Qfloor 0). now apply Qfloor_resp_le. }
  destruct (Qcompare _ _); [destruct (Z.even _) | |]; lia.
Qed.

Lemma round_half_even_nonpos (x : Q) : x <= 0 -> (round_half_even x <= 0)%Z.
Proof.
  intros Hx. unfold round_half_even.
  assert (Qfloor x <= 0)%Z as Hf.
  { change 0%Z with (Qfloor 0). now apply Qfloor_resp_le. }
  destruct (Z.eq_dec (Qfloor x) 0%Z) as [H0 | Hne].
  - rewrite H0.
    destruct (Qcompare_spec (x - inject_Z 0) (1 # 2)) as [He | Hl | Hg];
      [reflexivity | lia | unfold inject_Z in Hg; lra].
  - destruct (Qcompare _ _); [destruct (Z.even _) | |]; lia.
Qed.

Lemma round_half_even_0 : round_half_even 0 = 0%Z.
Proof. reflexivity. Qed.

(** Rounding commutes with clipping at 0. *)
Lemma round_clip_lower_0 (x : Q) :
  round_half_even (clip_lower 0 x) = Z.max 0 (round_half_even x).
Proof.
  unfold clip_lower. case_cmp.
  - rewrite round_half_even_0.
    pose proof (round_half_even_nonpos x (Qlt_le_weak _ _ E)). lia.
  - pose proof (round_half_even_nonneg x E). lia.
Qed.

(** A difference of at most one half rounds to 0. *)
Lemma round_half_even_small (x : Q) : 0 <= x -> x <= 1 # 2 -> round_half_even x = 0%Z.
Proof.
  intros H0 H1. unfold round_half_even.
  assert (Qfloor x = 0%Z) as Hf.
  { pose proof (Qfloor_le x) as Hle. pose proof (Qlt_floor x) as Hlt.
    assert (0 <= Qfloor x)%Z.
    { change 0%Z with (Qfloor 0). now apply Qfloor_resp_le. }
    assert (Qfloor x <= 0)%Z; [| lia].
    change 0%Z with (Qfloor (1 # 2)). now apply Qfloor_resp_le. }
  rewrite Hf.
  destruct (Qcompare_spec (x - inject_Z 0) (1 # 2)) as [He | Hl | Hg];
    [reflexivity | reflexivity | unfold inject_Z in Hg; lra].
Qed.

(** ** The int64 columns *)

Lemma astype_int64_in_range (z : Z) :
  (- 2 ^ 63 <= z < 2 ^ 63)%Z -> astype_int64 z = z.
Proof.
  intros [Hlo Hhi]. unfold astype_int64, int64_min, int64_max.
  change (2 ^ 63)%Z with 9223372036854775808%Z in *.
  rewrite (proj2 (Z.leb_le _ _)) by lia.
  rewrite (proj2 (Z.leb_le _ _)) by lia. reflexivity.
Qed.

Lemma astype_int64_too_large (z : Z) :
  (2 ^ 63 <= z)%Z -> astype_int64 z = (- 2 ^ 63)%Z.
Proof.
  intros Hhi. unfold astype_int64, int64_min, int64_max.
  change (2 ^ 63)%Z with 9223372036854775808%Z in *.
  rewrite (proj2 (Z.leb_gt z _)) by lia.
  rewrite andb_false_r. reflexivity.
Qed.

Lemma wrap_int64_in_range (z : Z) :
  (- 2 ^ 63 <= z < 2 ^ 63)%Z -> wrap_int64 z = z.
Proof.
  intros [Hlo Hhi]. unfold wrap_int64.
  change (2 ^ 64)%Z with 18446744073709551616%Z.
  change (2 ^ 63)%Z with 9223372036854775808%Z in *.
  rewrite Z.mod_small by lia. lia.
Qed.

(** ** Supplier scorer *)

Local Open Scope string_scope.

Lemma reliability_pct_ratio (s : SupplierRecord) (o t : Q) :
  on_time_deliveries s = Some o -> total_deliveries s = Some t -> ~ t == 0 ->
  reliability_pct s = o / t * 100.
Proof.
  intros Ho Ht Hne. unfold reliability_pct, fdiv. rewrite Ho, Ht.
  destruct (Qeq_bool t 0) eqn:E; [| reflexivity].
  apply Qeq_bool_iff in E. contradiction.
Qed.

Lemma reliability_pct_not_finite (s : SupplierRecord) :
  (forall q, fdiv (on_time_deliveries s) (total_deliveries s) <> XFin q) ->
  reliability_pct s = 0.
Proof.
  intros Hnf. unfold reliability_pct.
  destruct (fdiv _ _) as [q| | |]; [destruct (Hnf q) | | |]; reflexivity.
Qed.

Lemma fdiv_zero_or_missing (a b : cell) :
  b = None \/ (exists t, b = Some t /\ t == 0) ->
  forall q, fdiv a b <> XFin q.
Proof.
  intros [-> | (t & -> & Ht)] q; destruct a as [x|]; simpl; try discriminate.
  apply Qeq_bool_iff in Ht. rewrite Ht.
  destruct (Qeq_bool x 0); [discriminate |].
  destruct (Qltb 0 x); discriminate.
Qed.

Lemma ratio_gt_1 (o t : Q) : 0 < t -> t < o -> 1 < o / t.
Proof.
  intros Ht Hlt. apply Qlt_shift_div_l; [assumption | lra].
Qed.

Lemma ratio_in_unit (o t : Q) : 0 < t -> 0 <= o -> o <= t -> 0 <= o / t <= 1.
Proof.
  intros Ht Ho Hle. split.
  - apply Qle_shift_div_l; [assumption | lra].
  - apply Qle_shift_div_r; [assumption | lra].
Qed.

(** The three intervals of [pd.cut], and the values outside them. *)
Lemma reliability_band_of_cases (p : Q) :
  (- (1 # 10) < p <= 7499 # 100 /\ reliability_band_of p = Some "Risk (<75%)") \/
  (7499 # 100 < p <= 8999 # 100 /\ reliability_band_of p = Some "Watch (75-89%)") \/
  (8999 # 100 < p <= 100 /\ reliability_band_of p = Some "Reliable (90%+)") \/
  ((p <= - (1 # 10) \/ 100 < p) /\ reliability_band_of p = None).
Proof.
  unfold reliability_band_of, band_bins, band_labels, pd_cut.
  repeat (case_cmp; simpl); auto 10; solve [right; right; right; split; [lra | reflexivity]].
Qed.

(** C1 (as amended): when the deliveries of a supplier row are consistent,
    that is [0 <= on_time_deliveries <= total_deliveries] whenever both
    are present and the total is not 0, the computed [reliability_pct] lies
    between 0 and 100.  The script does not clamp. *)
Theorem reliability_pct_in_range_when_consistent (s : SupplierRecord) :
  (forall o t, on_time_deliveries s = Some o -> total_deliveries s = Some t ->
               ~ t == 0 -> 0 <= o <= t) ->
  0 <= reliability_pct s <= 100.
Proof.
  intros Hcons.
  destruct (on_time_deliveries s) as [o|] eqn:Ho;
    destruct (total_deliveries s) as [t|] eqn:Ht;
    try (rewrite reliability_pct_not_finite;
         [lra | rewrite Ho, Ht; simpl; try destruct o; discriminate]).
  destruct (Qeq_dec t 0) as [Hz | Hnz].
  - rewrite reliability_pct_not_finite; [lra |].
    rewrite Ho. apply fdiv_zero_or_missing. right. eauto.
  - rewrite (reliability_pct_ratio s o t Ho Ht Hnz).
    destruct (Hcons o t eq_refl eq_refl Hnz) as [H0 Hle].
    assert (0 < t) as Hpos.
    { destruct (Qlt_le_dec 0 t) as [? | Hneg]; [assumption |].
      exfalso. apply Hnz. lra. }
    destruct (ratio_in_unit o t Hpos H0 Hle) as [Hl Hu].
    set (q := o / t) in *. lra.
Qed.

Lemma reliability_pct_in_range_when_consistent_witness :
  0 <= reliability_pct Sample.supplier_b <= 100.
Proof.
  apply (reliability_pct_in_range_when_consistent Sample.supplier_b).
  intros o t Ho Ht _. simpl in Ho, Ht.
  injection Ho as <-. injection Ht as <-. split; discriminate.
Defined.

(** C1, as stated, fails: with 3 on-time deliveries out of 2 the computed
    percentage is 150. *)
Lemma reliability_pct_exceeds_100 :
  reliability_pct Sample.supplier_over == 150 /\
  ~ (0 <= reliability_pct Sample.supplier_over <= 100).
Proof.
  split; [reflexivity |].
  intros [_ H]. revert H. apply Qlt_not_le. reflexivity.
Qed.

(** With non-negative delivery counts the percentage is not negative, so
    every value up to 74.99 is in the Risk interval. *)
Lemma reliability_pct_nonneg (s : SupplierRecord) :
  (forall o, on_time_deliveries s = Some o -> 0 <= o) ->
  (forall t, total_deliveries s = Some t -> 0 <= t) ->
  0 <= reliability_pct s.
Proof.
  intros Hon Htot.
  destruct (on_time_deliveries s) as [o|] eqn:Ho;
    destruct (total_deliveries s) as [t|] eqn:Ht;
    try (rewrite reliability_pct_not_finite;
         [lra | rewrite Ho, Ht; simpl; try destruct o; discriminate]).
  destruct (Qeq_dec t 0) as [Hz | Hnz].
  - rewrite reliability_pct_not_finite; [lra |].
    rewrite Ho. apply fdiv_zero_or_missing. right. eauto.
  - rewrite (reliability_pct_ratio s o t Ho Ht Hnz).
    pose proof (Hon o eq_refl) as H0. pose proof (Htot t eq_refl) as H1.
    assert (0 < t) as Hpos.
    { destruct (Qlt_le_dec 0 t) as [? | Hneg]; [assumption |].
      exfalso. apply Hnz. lra. }
    assert (0 <= o / t) as Hq by (apply Qle_shift_div_l; [assumption | lra]).
    set (q := o / t) in *. lra.
Qed.

Lemma reliability_band_risk_nonneg (s : SupplierRecord) :
  (forall o, on_time_deliveries s = Some o -> 0 <= o) ->
  (forall t, total_deliveries s = Some t -> 0 <= t) ->
  reliability_pct s <= 7499 # 100 ->
  reliability_band s = Some "Risk (<75%)".
Proof.
  intros Hon Htot Hle. pose proof (reliability_pct_nonneg s Hon Htot) as H0.
  unfold reliability_band.
  destruct (reliability_band_of_cases (reliability_pct s))
    as [[_ ->] | [[Hp _] | [[Hp _] | [Hp _]]]]; try reflexivity; exfalso; lra.
Qed.

(** C2 (as amended): the band of a supplier row is the [pd.cut]
    classification of its [reliability_pct] over the bins (-0.1, 74.99],
    (74.99, 89.99] and (89.99, 100]: a value is Risk exactly when it is
    above -0.1 and at most 74.99, Watch exactly when it is above 74.99 and
    at most 89.99 (which covers 75.00 to 89.99), Reliable exactly when it is
    above 89.99 and at most 100 (which covers 90.00 to 100), and it has no
    band exactly when it is at most -0.1 or above 100; in particular 75.00
    is Watch and 90.00 is Reliable. *)
Theorem reliability_band_three_buckets (s : SupplierRecord) (p : Q) :
  reliability_band s = reliability_band_of (reliability_pct s) /\
  (reliability_band_of p = Some "Risk (<75%)" <-> - (1 # 10) < p <= 7499 # 100) /\
  (reliability_band_of p = Some "Watch (75-89%)" <->
   7499 # 100 < p <= 8999 # 100) /\
  (reliability_band_of p = Some "Reliable (90%+)" <-> 8999 # 100 < p <= 100) /\
  (reliability_band_of p = None <-> p <= - (1 # 10) \/ 100 < p) /\
  (- (1 # 10) < reliability_pct s <= 7499 # 100 ->
   reliability_band s = Some "Risk (<75%)") /\
  (75 <= reliability_pct s <= 8999 # 100 ->
   reliability_band s = Some "Watch (75-89%)") /\
  (90 <= reliability_pct s <= 100 ->
   reliability_band s = Some "Reliable (90%+)") /\
  reliability_band_of 75 = Some "Watch (75-89%)" /\
  reliability_band_of 90 = Some "Reliable (90%+)".
Proof.
  split; [reflexivity |].
  assert ((reliability_band_of p = Some "Risk (<75%)" <->
           - (1 # 10) < p <= 7499 # 100) /\
          (reliability_band_of p = Some "Watch (75-89%)" <->
           7499 # 100 < p <= 8999 # 100) /\
          (reliability_band_of p = Some "Reliable (90%+)" <->
           8999 # 100 < p <= 100) /\
          (reliability_band_of p = None <-> p <= - (1 # 10) \/ 100 < p)) as Hfun.
  { destruct (reliability_band_of_cases p)
      as [[Hp ->] | [[Hp ->] | [[Hp ->] | [Hp ->]]]];
      (split; [| split; [| split]]); split; intros H;
      try reflexivity; try discriminate H; try exact Hp; exfalso; lra. }
  destruct Hfun as (HR & HW & HRel & HN).
  split; [exact HR | split; [exact HW | split; [exact HRel | split; [exact HN |]]]].
  unfold reliability_band.
  destruct (reliability_band_of_cases (reliability_pct s))
    as [[Hp ->] | [[Hp ->] | [[Hp ->] | [Hp ->]]]];
    repeat split; intros; try reflexivity; exfalso; lra.
Qed.

Lemma reliability_band_three_buckets_witness :
  reliability_band Sample.supplier_a = Some "Reliable (90%+)" /\
  reliability_band Sample.supplier_edge = Some "Watch (75-89%)" /\
  reliability_band Sample.supplier_poor = Some "Risk (<75%)" /\
  reliability_band Sample.supplier_neg = None /\
  reliability_band Sample.supplier_over = None.
Proof.
  refine (conj _ (conj _ (conj _ (conj _ _)))).
  - destruct (reliability_band_three_buckets Sample.supplier_a
                (reliability_pct Sample.supplier_a)) as (-> & _ & _ & H & _).
    apply H. split; [reflexivity | discriminate].
  - destruct (reliability_band_three_buckets Sample.supplier_edge
                (reliability_pct Sample.supplier_edge)) as (-> & _ & H & _).
    apply H. split; [reflexivity | discriminate].
  - destruct (reliability_band_three_buckets Sample.supplier_poor
                (reliability_pct Sample.supplier_poor)) as (-> & H & _).
    apply H. split; [reflexivity | discriminate].
  - destruct (reliability_band_three_buckets Sample.supplier_neg
                (reliability_pct Sample.supplier_neg)) as (-> & _ & _ & _ & H & _).
    apply H. left. discriminate.
  - destruct (reliability_band_three_buckets Sample.supplier_over
                (reliability_pct Sample.supplier_over)) as (-> & _ & _ & _ & H & _).
    apply H. right. reflexivity.
Defined.

(** C2, as stated, fails below the lowest bin edge: a supplier row with -1
    on-time deliveries out of 20 has [reliability_pct = -5 <= 74.99] and
    gets no band at all. *)
Lemma reliability_band_missing_below_range :
  reliability_pct Sample.supplier_neg == -5 /\
  reliability_pct Sample.supplier_neg <= 7499 # 100 /\
  reliability_band Sample.supplier_neg = None /\
  reliability_band Sample.supplier_neg <> Some "Risk (<75%)".
Proof.
  repeat split; try reflexivity; discriminate.
Qed.

(** C3: [reliability_pct] is [on_time_deliveries / total_deliveries * 100]
    when that quotient is a number; whenever the quotient is not finite, in
    particular when [total_deliveries] is 0 or missing, the result is
    exactly 0.  [reliability_pct] is a total function into the rationals,
    so there is no exception and no other sentinel. *)
Theorem reliability_pct_division_policy (s : SupplierRecord) :
  (forall o t, on_time_deliveries s = Some o -> total_deliveries s = Some t ->
               ~ t == 0 -> reliability_pct s = o / t * 100) /\
  ((forall q, fdiv (on_time_deliveries s) (total_deliveries s) <> XFin q) ->
   reliability_pct s = 0) /\
  (total_deliveries s = None \/ (exists t, total_deliveries s = Some t /\ t == 0) ->
   reliability_pct s = 0).
Proof.
  split; [| split].
  - intros o t. apply reliability_pct_ratio.
  - apply reliability_pct_not_finite.
  - intros H. apply reliability_pct_not_finite. now apply fdiv_zero_or_missing.
Qed.

Lemma reliability_pct_division_policy_witness :
  reliability_pct Sample.supplier_b = 18 / 20 * 100 /\
  reliability_pct Sample.supplier_new = 0.
Proof.
  split.
  - destruct (reliability_pct_division_policy Sample.supplier_b) as (H & _ & _).
    apply H; [reflexivity | reflexivity | discriminate].
  - destruct (reliability_pct_division_policy Sample.supplier_new) as (_ & _ & H).
    apply H. right. exists 0. split; reflexivity.
Defined.

(** C9: a supplier row with [total_deliveries > 0] and
    [on_time_deliveries > total_deliveries] has a [reliability_pct] above
    100 and no [reliability_band] (none of the three labels). *)
Theorem reliability_band_undefined_above_100 (s : SupplierRecord) (o t : Q) :
  on_time_deliveries s = Some o -> total_deliveries s = Some t ->
  0 < t -> t < o ->
  100 < reliability_pct s /\ reliability_band s = None.
Proof.
  intros Ho Ht Hpos Hlt.
  assert (100 < reliability_pct s) as Hp.
  { rewrite (reliability_pct_ratio s o t Ho Ht); [| lra].
    pose proof (ratio_gt_1 o t Hpos Hlt). set (q := o / t) in *. lra. }
  split; [exact Hp |].
  unfold reliability_band.
  destruct (reliability_band_of_cases (reliability_pct s))
    as [[Hq _] | [[Hq _] | [[Hq _] | [_ ->]]]]; try reflexivity; exfalso; lra.
Qed.

Lemma reliability_band_undefined_above_100_witness :
  100 < reliability_pct Sample.supplier_over /\
  reliability_band Sample.supplier_over = None.
Proof.
  apply (reliability_band_undefined_above_100 Sample.supplier_over 3 2);
    reflexivity.
Defined.

(** ** Lookup maps *)

Lemma dict_zip_snoc {V : Type} {A : Type} (f : A -> string) (g : A -> V)
    (l : list A) (x : A) :
  dict_zip (map f (l ++ [x])) (map g (l ++ [x]))
  = <[f x := g x]> (dict_zip (map f l) (map g l)).
Proof.
  unfold dict_zip. rewrite !map_app. simpl.
  rewrite zip_with_app by (now rewrite !length_map).
  rewrite foldl_app. reflexivity.
Qed.

(** A key that no row carries is not in the dict. *)
Lemma dict_zip_lookup_None {V : Type} {A : Type} (f : A -> string) (g : A -> V)
    (l : list A) (k : string) :
  k ∉ map f l -> dict_zip (map f l) (map g l) !! k = None.
Proof.
  induction l as [| x l IH] using rev_ind; intros Hk.
  - reflexivity.
  - rewrite dict_zip_snoc. rewrite map_app in Hk. simpl in Hk.
    apply not_elem_of_app in Hk as [Hl Hx].
    apply not_elem_of_cons in Hx as [Hne _].
    rewrite lookup_insert_ne by congruence. now apply IH.
Qed.

(** With distinct keys every row is found under its key. *)
Lemma dict_zip_lookup {V : Type} {A : Type} (f : A -> string) (g : A -> V)
    (l : list A) (x : A) :
  NoDup (map f l) -> x ∈ l -> dict_zip (map f l) (map g l) !! f x = Some (g x).
Proof.
  induction l as [| y l IH] using rev_ind; intros Hnd Hx.
  - inversion Hx.
  - rewrite dict_zip_snoc. rewrite map_app in Hnd. simpl in Hnd.
    apply NoDup_app in Hnd as (Hnd & Hdisj & _).
    apply elem_of_app in Hx as [Hx | Hx].
    + rewrite lookup_insert_ne; [now apply IH |].
      intros Heq. apply (Hdisj (f x)).
      * apply list_elem_of_fmap. eauto.
      * rewrite Heq. apply list_elem_of_singleton. reflexivity.
    + apply list_elem_of_singleton in Hx. subst x. apply lookup_insert_eq.
Qed.

(** Duplicate names: the last row wins. *)
Lemma dict_zip_last_wins {V : Type} {A : Type} (f : A -> string) (g : A -> V)
    (l : list A) (x : A) :
  dict_zip (map f (l ++ [x])) (map g (l ++ [x])) !! f x = Some (g x).
Proof. rewrite dict_zip_snoc. apply lookup_insert_eq. Qed.

Lemma lt_map_lookup (ss : list ScoredSupplier) (s : ScoredSupplier) :
  NoDup (map (fun s => supplier_name (sup s)) ss) -> s ∈ ss ->
  lt_map ss !! supplier_name (sup s) = Some (avg_lead_time_days (sup s)).
Proof.
  apply (dict_zip_lookup (fun s => supplier_name (sup s))
                         (fun s => avg_lead_time_days (sup s))).
Qed.

Lemma rel_map_lookup (ss : list ScoredSupplier) (s : ScoredSupplier) :
  NoDup (map (fun s => supplier_name (sup s)) ss) -> s ∈ ss ->
  rel_map ss !! supplier_name (sup s) = Some (sup_reliability_pct s).
Proof.
  apply (dict_zip_lookup (fun s => supplier_name (sup s)) sup_reliability_pct).
Qed.

Lemma rel_map_lookup_None (ss : list ScoredSupplier) (k : string) :
  k ∉ map (fun s => supplier_name (sup s)) ss -> rel_map ss !! k = None.
Proof.
  apply (dict_zip_lookup_None (fun s => supplier_name (sup s)) sup_reliability_pct).
Qed.

(** ** Inventory health engine *)

Lemma reorder_point_formula (leads : gmap string cell) (r : InventoryRecord)
    (ss l u : Q) :
  safety_stock r = Some ss -> effective_lead_time leads r = Some l ->
  avg_daily_usage r = Some u ->
  reorder_point leads r = ss + l * u.
Proof.
  intros Hs Hl Hu. unfold reorder_point. rewrite Hs, Hl, Hu. reflexivity.
Qed.


Lemma rounded_shortfall_max (leads : gmap string cell) (r : InventoryRecord) :
  rounded_shortfall leads r
  = Z.max 0 (round_half_even (reorder_point leads r - current_stock_filled r)).
Proof. unfold rounded_shortfall. apply round_clip_lower_0. Qed.

Lemma rounded_shortfall_nonneg (leads : gmap string cell) (r : InventoryRecord) :
  (0 <= rounded_shortfall leads r)%Z.
Proof. rewrite rounded_shortfall_max. apply Z.le_max_l. Qed.

(** The cast to int64 keeps a rounded shortfall below 2^63. *)
Lemma reorder_qty_in_range (leads : gmap string cell) (r : InventoryRecord) :
  (rounded_shortfall leads r < 2 ^ 63)%Z ->
  reorder_qty leads r = rounded_shortfall leads r.
Proof.
  intros Hhi. unfold reorder_qty. apply astype_int64_in_range.
  pose proof (rounded_shortfall_nonneg leads r) as H0.
  change (2 ^ 63)%Z with 9223372036854775808%Z in *. lia.
Qed.




(** C5: the [lead_time_days] of an inventory row follows the fallback
    chain: the record's own value when it is present and positive;
    otherwise the average lead time that the lookup map has for the primary
    supplier; otherwise, when the supplier is not in the map or its lead
    time is NaN, the constant 5. *)
Theorem lead_time_fallback_chain (rels : gmap string Q) (leads : gmap string cell)
    (r : InventoryRecord) :
  let row := health rels leads r in
  (forall l, lead_time_days r = Some l -> 0 < l ->
             row_lead_time_days row = Some l) /\
  (~ (exists l, lead_time_days r = Some l /\ 0 < l) ->
   forall a, leads !! primary_supplier r = Some (Some a) ->
             row_lead_time_days row = Some a) /\
  (~ (exists l, lead_time_days r = Some l /\ 0 < l) ->
   leads !! primary_supplier r = None \/ leads !! primary_supplier r = Some None ->
   row_lead_time_days row = Some 5).
Proof.
  intros row. subst row. unfold health. cbn [row_lead_time_days].
  unfold effective_lead_time, np_where, map_cell.
  split; [| split].
  - intros l -> Hpos. simpl.
    apply Qle_bool_gt in Hpos. rewrite Hpos. reflexivity.
  - intros Hno a Ha. rewrite Ha.
    destruct (lead_time_days r) as [l|]; simpl; [| reflexivity].
    case_cmp; [reflexivity |]. exfalso. apply Hno. eauto.
  - intros Hno Hmiss.
    destruct Hmiss as [Hm | Hm]; rewrite Hm;
      (destruct (lead_time_days r) as [l|]; simpl; [| reflexivity]);
      (case_cmp; [reflexivity |]); exfalso; apply Hno; eauto.
Qed.

Lemma lead_time_fallback_chain_witness :
  let leads := lt_map (map score (Sample.roster ++ [Sample.supplier_new])) in
  row_lead_time_days (health ∅ leads Sample.flour) = Some 3 /\
  row_lead_time_days (health ∅ leads Sample.sugar) = Some 4 /\
  row_lead_time_days (health ∅ leads Sample.yeast) = Some 5.
Proof.
  intros leads. split; [| split].
  - destruct (lead_time_fallback_chain ∅ leads Sample.flour) as (H & _ & _).
    apply H; reflexivity.
  - destruct (lead_time_fallback_chain ∅ leads Sample.sugar) as (_ & H & _).
    apply H; [| reflexivity].
    intros (l & Hl & _). discriminate Hl.
  - destruct (lead_time_fallback_chain ∅ leads Sample.yeast) as (_ & _ & H).
    apply H; [| left; reflexivity].
    intros (l & Hl & Hpos). injection Hl as <-. discriminate Hpos.
Defined.

Lemma supply_risk_cases (rels : gmap string Q) (r : InventoryRecord) :
  (fillna 0 (rels !! primary_supplier r) < 75 /\
   supply_risk rels r = "Unreliable Supplier") \/
  (75 <= fillna 0 (rels !! primary_supplier r) /\ supply_risk rels r = "OK").
Proof.
  unfold supply_risk, primary_reliability, map_num, np_where.
  case_cmp; [left | right]; split; (assumption || reflexivity).
Qed.

Lemma stock_risk_cases (r : InventoryRecord) :
  ((exists s, safety_stock r = Some s /\ fillna 0 (current_stock r) < s) /\
   stock_risk r = "Low Stock") \/
  (~ (exists s, safety_stock r = Some s /\ fillna 0 (current_stock r) < s) /\
   stock_risk r = "OK").
Proof.
  unfold stock_risk, current_stock_filled, np_where, clt.
  destruct (safety_stock r) as [s|].
  - case_cmp; [left | right]; (split; [| reflexivity]).
    + exists s. split; [reflexivity | assumption].
    + intros (s' & Hs & Hlt). injection Hs as <-. lra.
  - right. split; [| reflexivity]. intros (s' & Hs & _). discriminate Hs.
Qed.

(** C7: for the row computed from an inventory record [r] and the
    reliability map, [stock_risk] is Low Stock exactly when the (NaN-filled)
    [current_stock] of [r] is below its [safety_stock], and OK otherwise;
    [supply_risk] is Unreliable Supplier exactly when the reliability
    looked up for the primary supplier of [r] (0 when unknown) is below 75,
    and OK otherwise; [overall_risk] is Risk exactly when [stock_risk] is
    Low Stock or [supply_risk] is Unreliable Supplier, and OK otherwise. *)
Theorem overall_risk_rule (rels : gmap string Q) (leads : gmap string cell)
    (r : InventoryRecord) :
  let row := health rels leads r in
  (row_overall_risk row = "⚠ Risk" <->
   row_stock_risk row = "Low Stock" \/ row_supply_risk row = "Unreliable Supplier") /\
  (row_overall_risk row <> "⚠ Risk" -> row_overall_risk row = "✅ OK") /\
  (row_supply_risk row = "Unreliable Supplier" <->
   fillna 0 (rels !! primary_supplier r) < 75) /\
  (row_supply_risk row <> "Unreliable Supplier" -> row_supply_risk row = "OK") /\
  (row_stock_risk row = "Low Stock" <->
   exists s, safety_stock r = Some s /\ fillna 0 (current_stock r) < s) /\
  (row_stock_risk row <> "Low Stock" -> row_stock_risk row = "OK") /\
  (row_overall_risk row = "⚠ Risk" <->
   (exists s, safety_stock r = Some s /\ fillna 0 (current_stock r) < s) \/
   fillna 0 (rels !! primary_supplier r) < 75) /\
  row_primary_reliability row = fillna 0 (rels !! primary_supplier r) /\
  row_current_stock row = fillna 0 (current_stock r) /\
  row_safety_stock row = safety_stock r.
Proof.
  intros row. subst row. unfold health.
  cbn [row_overall_risk row_stock_risk row_supply_risk row_primary_reliability
       row_current_stock row_safety_stock].
  unfold overall_risk, np_where.
  destruct (supply_risk_cases rels r) as [[Hp ->] | [Hp ->]];
    destruct (stock_risk_cases r) as [[Hs ->] | [Hs ->]];
    cbn [String.eqb Ascii.eqb Bool.eqb negb orb andb];
    repeat split; intros;
    repeat match goal with
           | H : _ \/ _ |- _ => destruct H
           end;
    try reflexivity; try discriminate; try assumption; try congruence;
    try (left; reflexivity); try (right; reflexivity);
    try (left; assumption); try (right; assumption);
    try contradiction; try (exfalso; lra).
Qed.

Lemma overall_risk_rule_witness :
  let rels := rel_map (map score Sample.roster) in
  let leads := lt_map (map score Sample.roster) in
  row_stock_risk (health rels leads Sample.sugar) = "Low Stock" /\
  row_supply_risk (health rels leads Sample.sugar) = "OK" /\
  row_overall_risk (health rels leads Sample.sugar) = "⚠ Risk" /\
  row_supply_risk (health rels leads Sample.yeast) = "Unreliable Supplier" /\
  row_stock_risk (health rels leads Sample.flour) = "OK" /\
  row_overall_risk (health rels leads Sample.flour) = "✅ OK".
Proof.
  intros rels leads.
  destruct (overall_risk_rule rels leads Sample.sugar)
    as (_ & _ & Hsup & Hsup_ok & Hst & _ & Hov & _).
  destruct (overall_risk_rule rels leads Sample.yeast)
    as (_ & _ & Hsup_y & _).
  destruct (overall_risk_rule rels leads Sample.flour)
    as (_ & Hov_ok & _ & _ & Hst_f & Hst_ok & Hov_f & _).
  refine (conj _ (conj _ (conj _ (conj _ (conj _ _))))).
  - apply Hst. exists 20. split; reflexivity.
  - apply Hsup_ok. intros H. apply Hsup in H. vm_compute in H. discriminate H.
  - apply Hov. left. exists 20. split; reflexivity.
  - apply Hsup_y. reflexivity.
  - apply Hst_ok. intros H. apply Hst_f in H. destruct H as (s & Hs & Hlt).
    injection Hs as <-. vm_compute in Hlt. discriminate Hlt.
  - apply Hov_ok. intros H. apply Hov_f in H.
    destruct H as [(s & Hs & Hlt) | Hlt].
    + injection Hs as <-. vm_compute in Hlt. discriminate Hlt.
    + vm_compute in Hlt. discriminate Hlt.
Defined.

(** ** Recommendation text *)

Lemma append_empty_r (s : string) : s +:+ EmptyString = s.
Proof.
  induction s as [| c s IH]; [reflexivity |].
  change (String c (s +:+ EmptyString) = String c s). now rewrite IH.
Qed.

(** The joined text starts with the first sentence. *)
Lemma concat_starts_with_head (sep x : string) (l : list string) :
  exists rest, String.concat sep (x :: l) = x +:+ rest.
Proof.
  destruct l as [| y l].
  - exists EmptyString. now rewrite append_empty_r.
  - exists (sep +:+ String.concat sep (y :: l)). reflexivity.
Qed.

Section RecommendProperties.
Variable format_1f : Q -> string.
Variable format_float : option Q -> string.

Lemma recs_of_reorder_fires (row : HealthRow) :
  row_current_stock row < row_reorder_point row ->
  recs_of format_1f format_float row
  = reorder_sentence row
      :: (reliability_recs row ++ cover_recs format_1f format_float row)%list.
Proof.
  intros Hlt. unfold recs_of, reorder_recs.
  apply Qltb_lt in Hlt. rewrite Hlt. reflexivity.
Qed.

Lemma recs_of_reorder_silent (row : HealthRow) :
  row_reorder_point row <= row_current_stock row ->
  reorder_recs row = [] /\
  recs_of format_1f format_float row
  = (reliability_recs row ++ cover_recs format_1f format_float row)%list.
Proof.
  intros Hge. unfold recs_of, reorder_recs.
  apply Qltb_ge in Hge. rewrite Hge. split; reflexivity.
Qed.

Lemma reorder_target_cases (row : HealthRow) :
  (row_backup_reliability row <= row_primary_reliability row ->
   reorder_target row = row_primary_supplier row) /\
  (row_primary_reliability row < row_backup_reliability row ->
   reorder_target row = row_backup_supplier row +:+ " (backup)").
Proof.
  unfold reorder_target. split; intros H.
  - apply Qltb_ge in H. now rewrite H.
  - apply Qltb_lt in H. now rewrite H.
Qed.

(** C6: for an inventory row with [current_stock < reorder_point] the
    recommendation starts with the sentence
    "Reorder {reorder_qty} units of {material} from {target}.", where
    [target] is the primary supplier when
    [backup_reliability <= primary_reliability] and
    "{backup_supplier} (backup)" when
    [backup_reliability > primary_reliability]; when
    [current_stock >= reorder_point] the reorder check appends nothing. *)
Theorem reorder_sentence_rule (rels : gmap string Q) (leads : gmap string (option Q))
    (r : InventoryRecord) :
  let row := health rels leads r in
  (row_current_stock row < row_reorder_point row ->
   exists target rest,
     let sentence :=
       "Reorder " +:+ pretty (row_reorder_qty row) +:+ " units of "
         +:+ row_material row +:+ " from " +:+ target +:+ "." in
     recommend format_1f format_float row = sentence +:+ rest /\
     recs_of format_1f format_float row
     = sentence :: (reliability_recs row ++ cover_recs format_1f format_float row)%list /\
     (row_backup_reliability row <= row_primary_reliability row ->
      target = row_primary_supplier row) /\
     (row_primary_reliability row < row_backup_reliability row ->
      target = row_backup_supplier row +:+ " (backup)")) /\
  (row_reorder_point row <= row_current_stock row ->
   reorder_recs row = [] /\
   recs_of format_1f format_float row
   = (reliability_recs row ++ cover_recs format_1f format_float row)%list).
Proof.
  intros row. split.
  - intros Hlt.
    pose proof (recs_of_reorder_fires row Hlt) as Hrecs.
    destruct (concat_starts_with_head " " (reorder_sentence row)
                (reliability_recs row ++ cover_recs format_1f format_float row)%list)
      as [rest Hrest].
    exists (reorder_target row), rest. cbv zeta.
    change ("Reorder " +:+ pretty (row_reorder_qty row) +:+ " units of "
              +:+ row_material row +:+ " from " +:+ reorder_target row +:+ ".")
      with (reorder_sentence row).
    split; [| split; [exact Hrecs | apply reorder_target_cases]].
    unfold recommend. rewrite Hrecs. exact Hrest.
  - apply recs_of_reorder_silent.
Qed.

(** A shortfall of at most half a unit still fires the reorder check, with
    a quantity of 0. *)
Lemma reorder_zero_units_general (rels : gmap string Q)
    (leads : gmap string (option Q)) (r : InventoryRecord) :
  let row := health rels leads r in
  0 < row_reorder_point row - row_current_stock row ->
  row_reorder_point row - row_current_stock row <= 1 # 2 ->
  row_reorder_qty row = 0%Z /\
  exists rest,
    recommend format_1f format_float row
    = ("Reorder 0 units of " +:+ row_material row +:+ " from "
         +:+ reorder_target row +:+ ".") +:+ rest.
Proof.
  intros row Hpos Hsmall.
  assert (row_reorder_qty row = 0%Z) as Hq.
  { simpl. unfold reorder_qty, rounded_shortfall, clip_lower.
    simpl in Hpos, Hsmall.
    case_cmp; [lra |].
    rewrite round_half_even_small; [reflexivity | exact E | exact Hsmall]. }
  split; [exact Hq |].
  assert (row_current_stock row < row_reorder_point row) as Hlt by lra.
  pose proof (recs_of_reorder_fires row Hlt) as Hrecs.
  destruct (concat_starts_with_head " " (reorder_sentence row)
              (reliability_recs row ++ cover_recs format_1f format_float row)%list)
    as [rest Hrest].
  exists rest. unfold recommend. rewrite Hrecs, Hrest.
  unfold reorder_sentence. rewrite Hq. reflexivity.
Qed.
End RecommendProperties.

Lemma reorder_sentence_rule_witness :
  let rels := rel_map (map score Sample.roster) in
  let leads := lt_map (map score Sample.roster) in
  (exists rest,
     recommend Sample.show_1f Sample.show_float (health rels leads Sample.sugar)
     = "Reorder 30 units of Sugar from Supplier A (backup)." +:+ rest) /\
  reorder_recs (health rels leads Sample.flour) = [].
Proof.
  intros rels leads. split.
  - destruct (reorder_sentence_rule Sample.show_1f Sample.show_float
                rels leads Sample.sugar) as [H _].
    destruct H as (target & rest & Hrec & _ & _ & Htarget); [reflexivity |].
    exists rest. rewrite Hrec, Htarget; reflexivity.
  - destruct (reorder_sentence_rule Sample.show_1f Sample.show_float
                rels leads Sample.flour) as [_ H].
    apply H. vm_compute. discriminate.
Defined.

(** C10: there is an inventory input with
    [0 < reorder_point - current_stock < 0.5] for which the reorder check
    fires although [reorder_qty] rounds to 0, so that the recommendation is
    "Reorder 0 units of Flour from Supplier A.".  The input is the sample
    roster and the Flour record with a stock of 49.75. *)
Theorem reorder_zero_units (format_1f : Q -> string) (format_float : option Q -> string) :
  exists (suppliers : frame SupplierRecord) (inventory : frame InventoryRecord)
         (out : output) (row : HealthRow),
    run format_1f format_float false false suppliers inventory = Rendered out /\
    out_inventory out = [(row, "Reorder 0 units of Flour from Supplier A.")] /\
    0 < row_reorder_point row - row_current_stock row /\
    row_reorder_point row - row_current_stock row < 1 # 2 /\
    row_current_stock row < row_reorder_point row /\
    row_reorder_qty row = 0%Z.
Proof.
  exists (mkFrame Sample.sup_cols Sample.roster),
         (mkFrame Sample.inv_cols [Sample.flour_just_below]).
  eexists. eexists.
  split; [vm_compute; reflexivity |].
  split; [vm_compute; reflexivity |].
  repeat split; reflexivity.
Qed.

(** ** Validation of the required columns *)

Lemma issubset_missing_columns (required : gset string) (cols : list string) :
  issubset required cols = true <-> missing_columns required cols = [].
Proof.
  unfold issubset, missing_columns.
  rewrite bool_decide_eq_true, elem_of_subseteq. split.
  - intros Hsub. apply elem_of_nil_inv. intros c Hc.
    apply list_elem_of_filter in Hc as [Hnot Hin].
    apply Hnot. apply elem_of_elements in Hin.
    apply (elem_of_list_to_set (C:=gset string)). now apply Hsub.
  - intros Hnil c Hc. apply (elem_of_list_to_set (C:=gset string)).
    destruct (decide (c ∈ cols)) as [Hin | Hnot]; [exact Hin | exfalso].
    apply (filter_nil_not_elem_of _ _ c Hnil Hnot).
    now apply elem_of_elements.
Qed.

Lemma issubset_false_missing_columns (required : gset string) (cols : list string) :
  issubset required cols = false <-> missing_columns required cols <> [].
Proof.
  rewrite <- issubset_missing_columns. symmetry. apply not_true_iff_false.
Qed.

(** C8 (as amended): if a required column is missing from the supplier
    table or from the inventory table, the run stops at the validation,
    whatever the rows are, with the fixed message "Please provide valid CSVs
    with required columns (see sidebar)."; a stopped run carries no
    augmented rows, KPIs or recommendations.  With both headers complete
    the run renders the engine's output. *)
Theorem schema_validation_stops (format_1f : Q -> string)
    (format_float : option Q -> string) (sim_delay sim_demand_spike : bool)
    (suppliers : frame SupplierRecord) (inventory : frame InventoryRecord) :
  (missing_columns required_sup_cols (columns suppliers) <> [] \/
   missing_columns required_inv_cols (columns inventory) <> [] ->
   run format_1f format_float sim_delay sim_demand_spike suppliers inventory
   = Stopped "Please provide valid CSVs with required columns (see sidebar).") /\
  (missing_columns required_sup_cols (columns suppliers) = [] ->
   missing_columns required_inv_cols (columns inventory) = [] ->
   run format_1f format_float sim_delay sim_demand_spike suppliers inventory
   = Rendered (engine format_1f format_float
                 (apply_sim_delay sim_delay (rows suppliers))
                 (apply_sim_demand_spike sim_demand_spike (rows inventory)))).
Proof.
  unfold run. split.
  - intros [H | H]; apply issubset_false_missing_columns in H; rewrite H.
    + reflexivity.
    + rewrite orb_true_r. reflexivity.
  - intros Hs Hi. apply issubset_missing_columns in Hs, Hi.
    rewrite Hs, Hi. reflexivity.
Qed.

Lemma schema_validation_stops_witness :
  run Sample.show_1f Sample.show_float false false
      (mkFrame ["supplier_id"; "supplier_name"] Sample.roster)
      (mkFrame Sample.inv_cols [Sample.flour])
  = Stopped "Please provide valid CSVs with required columns (see sidebar).".
Proof.
  apply (schema_validation_stops Sample.show_1f Sample.show_float false false
           (mkFrame ["supplier_id"; "supplier_name"] Sample.roster)
           (mkFrame Sample.inv_cols [Sample.flour])).
  left. vm_compute. discriminate.
Defined.

(** C8, as stated, fails: the error that reaches the caller does not list
    the missing columns.  A supplier table without [priority] and one
    without [is_backup] stop with the same message, and the name of the
    missing column does not occur in it. *)
Lemma schema_error_omits_missing_columns :
  let no_priority :=
    mkFrame ["supplier_id"; "supplier_name"; "total_deliveries";
             "on_time_deliveries"; "avg_lead_time_days"; "price_index";
             "is_backup"] Sample.roster in
  let no_is_backup :=
    mkFrame ["supplier_id"; "supplier_name"; "total_deliveries";
             "on_time_deliveries"; "avg_lead_time_days"; "price_index";
             "priority"] Sample.roster in
  let inventory := mkFrame Sample.inv_cols [Sample.flour] in
  missing_columns required_sup_cols (columns no_priority) = ["priority"] /\
  missing_columns required_sup_cols (columns no_is_backup) = ["is_backup"] /\
  run Sample.show_1f Sample.show_float false false no_priority inventory
  = Stopped schema_error_message /\
  run Sample.show_1f Sample.show_float false false no_is_backup inventory
  = Stopped schema_error_message /\
  String.index 0 "priority" schema_error_message = None /\
  String.index 0 "is_backup" schema_error_message = None.
Proof.
  vm_compute. repeat split.
Qed.

(** * Further properties of the script *)

(** ** Rounding *)

(** [round(0)] moves a number by at most one half. *)
Lemma round_half_even_error (x : Q) :
  x - (1 # 2) <= inject_Z (round_half_even x) <= x + (1 # 2).
Proof.
  unfold round_half_even.
  pose proof (Qfloor_le x) as Hlo. pose proof (Qlt_floor x) as Hhi.
  rewrite inject_Z_plus in Hhi. change (inject_Z 1) with 1 in Hhi.
  destruct (Qcompare_spec (x - inject_Z (Qfloor x)) (1 # 2)) as [He | Hl | Hg].
  - destruct (Z.even (Qfloor x));
      [| rewrite inject_Z_plus; change (inject_Z 1) with 1];
      set (f := inject_Z (Qfloor x)) in *; lra.
  - set (f := inject_Z (Qfloor x)) in *. lra.
  - rewrite inject_Z_plus. change (inject_Z 1) with 1.
    set (f := inject_Z (Qfloor x)) in *. lra.
Qed.

(** A whole number is left as it is. *)
Lemma round_half_even_inject_Z (z : Z) : round_half_even (inject_Z z) = z.
Proof.
  unfold round_half_even. rewrite Qfloor_Z.
  destruct (Qcompare_spec (inject_Z z - inject_Z z) (1 # 2)) as [He | Hl | Hg];
    [exfalso; lra | reflexivity | exfalso; lra].
Qed.

(** X1: [reorder_qty] is a whole number within half a unit of the shortfall
    [max(0, reorder_point - current_stock)] computed from the record, as
    long as the shortfall stays below 2^63 - 0.5, so that the rounded value
    fits the int64 column. *)
Theorem reorder_qty_near_shortfall (rels : gmap string Q)
    (leads : gmap string (option Q)) (r : InventoryRecord) :
  let shortfall :=
    clip_lower 0
      (fillna 0 (cadd (safety_stock r)
                      (cmul (effective_lead_time leads r) (avg_daily_usage r)))
       - fillna 0 (current_stock r)) in
  shortfall < inject_Z (2 ^ 63) - (1 # 2) ->
  shortfall - (1 # 2) <= inject_Z (row_reorder_qty (health rels leads r))
  <= shortfall + (1 # 2).
Proof.
  intros shortfall Hfit. unfold health. cbn [row_reorder_qty].
  pose proof (round_half_even_error shortfall) as [Hlo Hhi].
  assert (rounded_shortfall leads r = round_half_even shortfall) as Hrs
      by reflexivity.
  rewrite reorder_qty_in_range; rewrite Hrs; [split; assumption |].
  rewrite Zlt_Qlt. lra.
Qed.

Lemma reorder_qty_near_shortfall_witness :
  30 - (1 # 2)
  <= inject_Z (row_reorder_qty (health (rel_map (map score Sample.roster))
                                       (lt_map (map score Sample.roster))
                                       Sample.sugar))
  <= 30 + (1 # 2).
Proof.
  pose proof (reorder_qty_near_shortfall (rel_map (map score Sample.roster))
                (lt_map (map score Sample.roster)) Sample.sugar) as H.
  cbv zeta in H. specialize (H eq_refl).
  destruct H as [Hlo Hhi]. split.
  - eapply Qle_trans; [| exact Hlo]. vm_compute. discriminate.
  - eapply Qle_trans; [exact Hhi |]. vm_compute. discriminate.
Defined.

(** ** The lookup maps and the join *)

Lemma scored_names (ss : list SupplierRecord) :
  map (fun s => supplier_name (sup s)) (map score ss) = map supplier_name ss.
Proof. rewrite map_map. reflexivity. Qed.

(** The entry of a key is the value of the last row that carries it. *)
Lemma dict_zip_lookup_last {V : Type} {A : Type} (f : A -> string) (g : A -> V)
    (l1 l2 : list A) (x : A) :
  f x ∉ map f l2 ->
  dict_zip (map f (l1 ++ x :: l2)) (map g (l1 ++ x :: l2)) !! f x = Some (g x).
Proof.
  induction l2 as [| y l2 IH] using rev_ind; intros Hnot.
  - apply dict_zip_last_wins.
  - rewrite map_app in Hnot. simpl in Hnot.
    apply not_elem_of_app in Hnot as [Hl Hy].
    apply not_elem_of_cons in Hy as [Hne _].
    change (l1 ++ x :: l2 ++ [y])%list with (l1 ++ (x :: l2) ++ [y])%list.
    rewrite app_assoc, dict_zip_snoc.
    rewrite lookup_insert_ne by congruence. now apply IH.
Qed.

(** X2: the join by supplier name: an inventory row gets the reliability and
    the lead time of the last supplier row that carries the name of its
    primary supplier. *)
Theorem join_uses_last_supplier_row (before after : list SupplierRecord)
    (s : SupplierRecord) (r : InventoryRecord) :
  primary_supplier r = supplier_name s ->
  supplier_name s ∉ map supplier_name after ->
  let scored := map score (before ++ s :: after) in
  row_primary_reliability (health (rel_map scored) (lt_map scored) r)
  = reliability_pct s /\
  lt_map scored !! primary_supplier r = Some (avg_lead_time_days s).
Proof.
  intros Hname Hlast scored. subst scored. unfold health, rel_map, lt_map.
  cbn [row_primary_reliability]. unfold primary_reliability, map_num.
  rewrite Hname, map_app. cbn [map].
  rewrite <- scored_names in Hlast.
  pose proof (dict_zip_lookup_last (fun s => supplier_name (sup s))
                sup_reliability_pct (map score before) (map score after)
                (score s) Hlast) as Hrel.
  pose proof (dict_zip_lookup_last (fun s => supplier_name (sup s))
                (fun s => avg_lead_time_days (sup s))
                (map score before) (map score after) (score s) Hlast) as Hlead.
  cbn [score sup sup_reliability_pct] in Hrel, Hlead.
  split; [rewrite Hrel; reflexivity | exact Hlead].
Qed.

Lemma join_uses_last_supplier_row_witness :
  let scored := map score ([Sample.supplier_a] ++ Sample.supplier_b :: []) in
  row_primary_reliability (health (rel_map scored) (lt_map scored) Sample.sugar)
  = reliability_pct Sample.supplier_b /\
  lt_map scored !! primary_supplier Sample.sugar = Some (Some 4).
Proof.
  apply (join_uses_last_supplier_row [Sample.supplier_a] [] Sample.supplier_b
           Sample.sugar); [reflexivity |].
  apply not_elem_of_nil.
Defined.

(** X3: an inventory row whose primary supplier is not in the supplier table
    gets reliability 0, is flagged as supplied unreliably and as at risk,
    and its recommendation has a reliability sentence: a switch to the
    backup when the backup has a positive reliability, and otherwise the
    advice to keep the primary. *)
Theorem unknown_primary_supplier (ss : list SupplierRecord) (r : InventoryRecord) :
  primary_supplier r ∉ map supplier_name ss ->
  let scored := map score ss in
  let row := health (rel_map scored) (lt_map scored) r in
  row_primary_reliability row = 0 /\
  row_supply_risk row = "Unreliable Supplier" /\
  row_overall_risk row = "⚠ Risk" /\
  reliability_recs row
  = (if Qltb 0 (row_backup_reliability row)
     then [switch_sentence row] else [keep_sentence row]).
Proof.
  intros Hnot scored row.
  assert (rel_map scored !! primary_supplier r = None) as Hnone.
  { apply rel_map_lookup_None. unfold scored. now rewrite scored_names. }
  assert (row_primary_reliability row = 0) as Hrel.
  { subst row. unfold health. cbn [row_primary_reliability].
    unfold primary_reliability, map_num. now rewrite Hnone. }
  assert (row_supply_risk row = "Unreliable Supplier") as Hsup.
  { subst row. unfold health in *. cbn [row_supply_risk row_primary_reliability] in *.
    unfold supply_risk. now rewrite Hrel. }
  repeat split; try assumption.
  - subst row. unfold health in *. cbn [row_overall_risk row_supply_risk] in *.
    unfold overall_risk. rewrite Hsup.
    destruct (stock_risk r =? "OK")%string; reflexivity.
  - unfold reliability_recs. rewrite Hrel. reflexivity.
Qed.

Lemma unknown_primary_supplier_witness :
  let scored := map score Sample.roster in
  let row := health (rel_map scored) (lt_map scored) Sample.yeast in
  row_primary_reliability row = 0 /\
  row_supply_risk row = "Unreliable Supplier" /\
  row_overall_risk row = "⚠ Risk" /\
  reliability_recs row
  = (if Qltb 0 (row_backup_reliability row)
     then [switch_sentence row] else [keep_sentence row]).
Proof.
  apply (unknown_primary_supplier Sample.roster Sample.yeast).
  vm_compute. intros H. inversion H as [| ? ? ? H1]; subst.
  inversion H1 as [| ? ? ? H2]; subst. inversion H2.
Defined.

(** X4: [days_of_cover] is [current_stock / avg_daily_usage]; with a usage of 0
    or a missing usage or stock it is 0 and not infinite, so that a positive
    lead time makes the cover check fire. *)
Theorem days_of_cover_without_usage (format_1f : Q -> string)
    (format_float : option Q -> string) (rels : gmap string Q)
    (leads : gmap string (option Q)) (r : InventoryRecord) :
  let row := health rels leads r in
  (forall c u, current_stock r = Some c -> avg_daily_usage r = Some u ->
               ~ u == 0 -> row_days_of_cover row = c / u) /\
  (current_stock r = None \/ avg_daily_usage r = None \/
   (exists u, avg_daily_usage r = Some u /\ u == 0) ->
   row_days_of_cover row = 0 /\
   forall l, row_lead_time_days row = Some l -> 0 < l ->
             cover_recs format_1f format_float row
             = [cover_sentence format_1f format_float row]).
Proof.
  intros row. subst row. unfold health. cbn [row_days_of_cover row_lead_time_days].
  split.
  - intros c u Hc Hu Hne. unfold days_of_cover, fdiv. rewrite Hc, Hu.
    destruct (Qeq_bool u 0) eqn:E; [| reflexivity].
    apply Qeq_bool_iff in E. contradiction.
  - intros Hmiss.
    assert (days_of_cover r = 0) as Hz.
    { unfold days_of_cover.
      destruct Hmiss as [Hc | Hu].
      - rewrite Hc. reflexivity.
      - assert (forall q, fdiv (current_stock r) (avg_daily_usage r) <> XFin q) as Hnf.
        { apply fdiv_zero_or_missing. destruct Hu as [Hu | Hu]; [now left | now right]. }
        destruct (fdiv _ _) as [q| | |]; [destruct (Hnf q) | | |]; reflexivity. }
    split; [exact Hz |].
    intros l Hl Hpos. unfold cover_recs. cbn [row_days_of_cover row_lead_time_days].
    rewrite Hz, Hl. unfold clt. apply Qltb_lt in Hpos. now rewrite Hpos.
Qed.

Lemma days_of_cover_without_usage_witness :
  let row := health (rel_map (map score Sample.roster))
                    (lt_map (map score Sample.roster)) Sample.saffron in
  row_days_of_cover row = 0 /\
  cover_recs Sample.show_1f Sample.show_float row
  = [cover_sentence Sample.show_1f Sample.show_float row].
Proof.
  intros row.
  destruct (days_of_cover_without_usage Sample.show_1f Sample.show_float
              (rel_map (map score Sample.roster))
              (lt_map (map score Sample.roster)) Sample.saffron) as [_ H].
  destruct H as [Hz Hc].
  - right. right. exists 0. split; reflexivity.
  - split; [exact Hz |]. apply (Hc 3); reflexivity.
Defined.



(** ** How the flags and the sentences fit together *)



(** X7: the supply-risk threshold and the band edges differ: a primary supplier
    with a reliability above 74.99 and below 75 is in the band "Watch
    (75-89%)" and is nevertheless flagged as an unreliable supplier. *)
Theorem watch_band_flagged_unreliable (rels : gmap string Q)
    (leads : gmap string (option Q)) (r : InventoryRecord) (p : Q) :
  rels !! primary_supplier r = Some p -> 7499 # 100 < p -> p < 75 ->
  let row := health rels leads r in
  reliability_band_of (row_primary_reliability row) = Some "Watch (75-89%)" /\
  row_supply_risk row = "Unreliable Supplier" /\
  row_overall_risk row = "⚠ Risk".
Proof.
  intros Hp Hlo Hhi row. subst row. unfold health.
  cbn [row_primary_reliability row_supply_risk row_overall_risk].
  assert (primary_reliability rels r = p) as Hrel
      by (unfold primary_reliability, map_num; now rewrite Hp).
  assert (supply_risk rels r = "Unreliable Supplier") as Hsup.
  { unfold supply_risk. rewrite Hrel. apply Qltb_lt in Hhi. now rewrite Hhi. }
  rewrite Hrel. split; [| split; [exact Hsup |]].
  - destruct (reliability_band_of_cases p)
      as [[Hq _] | [[_ ->] | [[Hq _] | [Hq _]]]]; try reflexivity; exfalso; lra.
  - unfold overall_risk. rewrite Hsup.
    destruct (stock_risk r =? "OK")%string; reflexivity.
Qed.

Lemma watch_band_flagged_unreliable_witness :
  let scored := map score [Sample.supplier_a; Sample.supplier_edge] in
  let row := health (rel_map scored) (lt_map scored) Sample.salt in
  reliability_band_of (row_primary_reliability row) = Some "Watch (75-89%)" /\
  row_supply_risk row = "Unreliable Supplier" /\
  row_overall_risk row = "⚠ Risk".
Proof.
  apply (watch_band_flagged_unreliable
           (rel_map (map score [Sample.supplier_a; Sample.supplier_edge]))
           (lt_map (map score [Sample.supplier_a; Sample.supplier_edge]))
           Sample.salt (14999 / 20000 * 100)); reflexivity.
Defined.

Lemma reliability_pct_in_range_bounds_aux (s : SupplierRecord) :
  (forall o t, on_time_deliveries s = Some o -> total_deliveries s = Some t ->
               ~ t == 0 -> 0 <= o <= t) ->
  0 <= reliability_pct s <= 100.
Proof.
  intros Hcons.
  destruct (on_time_deliveries s) as [o|] eqn:Ho;
    destruct (total_deliveries s) as [t|] eqn:Ht;
    try (rewrite reliability_pct_not_finite;
         [lra | rewrite Ho, Ht; simpl; try destruct o; discriminate]).
  destruct (Qeq_dec t 0) as [Hz | Hnz].
  - rewrite reliability_pct_not_finite; [lra |].
    rewrite Ho. apply fdiv_zero_or_missing. right. eauto.
  - rewrite (reliability_pct_ratio s o t Ho Ht Hnz).
    destruct (Hcons o t eq_refl eq_refl Hnz) as [H0 Hle].
    assert (0 < t) as Hpos.
    { destruct (Qlt_le_dec 0 t) as [? | Hneg]; [assumption |].
      exfalso. apply Hnz. lra. }
    destruct (ratio_in_unit o t Hpos H0 Hle) as [Hl Hu].
    set (q := o / t) in *. lra.
Qed.

(** X8: A supplier row has no band exactly when its percentage is at most -0.1
    or above 100; with consistent delivery counts every row has a band. *)
Theorem reliability_band_defined_iff (s : SupplierRecord) :
  (reliability_band s = None <->
   reliability_pct s <= - (1 # 10) \/ 100 < reliability_pct s) /\
  ((forall o t, on_time_deliveries s = Some o -> total_deliveries s = Some t ->
                ~ t == 0 -> 0 <= o <= t) ->
   is_Some (reliability_band s)).
Proof.
  unfold reliability_band.
  assert (reliability_band_of (reliability_pct s) = None <->
          reliability_pct s <= - (1 # 10) \/ 100 < reliability_pct s) as Hiff.
  { destruct (reliability_band_of_cases (reliability_pct s))
      as [[Hp ->] | [[Hp ->] | [[Hp ->] | [Hp ->]]]];
      (split; [intros H; try discriminate H; exact Hp
              | intros H; try reflexivity; exfalso; lra]). }
  split; [exact Hiff |].
  intros Hcons.
  pose proof (reliability_pct_in_range_bounds_aux s Hcons) as Hr.
  destruct (reliability_band_of (reliability_pct s)) as [lab|]; [eauto |].
  exfalso. destruct Hiff as [Hout _]. specialize (Hout eq_refl). lra.
Qed.

Lemma reliability_band_defined_iff_witness :
  is_Some (reliability_band Sample.supplier_b).
Proof.
  apply (reliability_band_defined_iff Sample.supplier_b).
  intros o t Ho Ht _. simpl in Ho, Ht.
  injection Ho as <-. injection Ht as <-. split; discriminate.
Defined.

Lemma append_head_differs (c c' : Ascii.ascii) (s t rest u : string) :
  c <> c' -> (String c s +:+ t) +:+ rest <> String c' u.
Proof.
  intros Hne H.
  change (String c ((s +:+ t) +:+ rest) = String c' u) in H.
  injection H as Hc _. contradiction.
Qed.

Lemma concat_head_differs (c c' : Ascii.ascii) (s t u : string) (l : list string) :
  c <> c' -> String.concat " " ((String c s +:+ t) :: l) <> String c' u.
Proof.
  intros Hne. destruct (concat_starts_with_head " " (String c s +:+ t) l) as [rest ->].
  now apply append_head_differs.
Qed.

Section RecommendFurther.
Variable format_1f : Q -> string.
Variable format_float : option Q -> string.

(** X9: the recommendation is the literal "No action needed." exactly when none
    of the three checks fires: the stock is not below the reorder point, the
    primary reliability is at least 75, and the days of cover are not below
    the lead time. *)
Theorem no_action_needed_iff (row : HealthRow) :
  recommend format_1f format_float row = "No action needed." <->
  row_reorder_point row <= row_current_stock row /\
  75 <= row_primary_reliability row /\
  clt (Some (row_days_of_cover row)) (row_lead_time_days row) = false.
Proof.
  unfold recommend, recs_of, reorder_recs, reliability_recs, cover_recs.
  destruct (Qltb (row_current_stock row) (row_reorder_point row)) eqn:E1;
    [apply Qltb_lt in E1 | apply Qltb_ge in E1].
  { split.
    - intros H. exfalso. revert H. cbn [app]. unfold reorder_sentence.
      apply concat_head_differs. discriminate.
    - intros [H _]. exfalso. lra. }
  destruct (Qltb (row_primary_reliability row) 75) eqn:E2;
    [apply Qltb_lt in E2 | apply Qltb_ge in E2].
  { split.
    - intros H. exfalso. revert H. cbn [app].
      destruct (Qltb (row_primary_reliability row) (row_backup_reliability row));
        cbn [app]; [unfold switch_sentence | unfold keep_sentence];
        apply concat_head_differs; discriminate.
    - intros (_ & H & _). exfalso. lra. }
  destruct (clt (Some (row_days_of_cover row)) (row_lead_time_days row)) eqn:E3.
  { split.
    - intros H. exfalso. revert H. cbn [app]. unfold cover_sentence.
      apply concat_head_differs. discriminate.
    - intros (_ & _ & H). discriminate H. }
  cbn [app]. split; [intros _; repeat split; assumption | reflexivity].
Qed.

(** X10: the reliability check and the supply-risk flag agree: a row has a
    reliability sentence exactly when it is flagged "Unreliable Supplier";
    the sentence is the switch to the backup when the backup is more
    reliable than the primary, and the advice to keep the primary
    otherwise. *)
Theorem reliability_sentence_iff_supply_risk (rels : gmap string Q)
    (leads : gmap string (option Q)) (r : InventoryRecord) :
  let row := health rels leads r in
  (row_supply_risk row = "Unreliable Supplier" ->
   reliability_recs row
   = (if Qltb (row_primary_reliability row) (row_backup_reliability row)
      then [switch_sentence row] else [keep_sentence row])) /\
  (row_supply_risk row <> "Unreliable Supplier" -> reliability_recs row = []).
Proof.
  intros row. subst row. unfold health, reliability_recs.
  cbn [row_supply_risk row_primary_reliability row_backup_reliability].
  unfold supply_risk, np_where.
  destruct (Qltb (primary_reliability rels r) 75); split; intros H;
    try reflexivity; try discriminate H; now destruct H.
Qed.
End RecommendFurther.

Lemma no_action_needed_iff_witness :
  recommend Sample.show_1f Sample.show_float
            (health (rel_map (map score Sample.roster))
                    (lt_map (map score Sample.roster)) Sample.flour)
  = "No action needed.".
Proof.
  apply (no_action_needed_iff Sample.show_1f Sample.show_float).
  split; [| split]; vm_compute; try reflexivity; discriminate.
Defined.

Lemma reliability_sentence_iff_supply_risk_witness :
  let row := health (rel_map (map score Sample.roster))
                    (lt_map (map score Sample.roster)) Sample.yeast in
  reliability_recs row = [switch_sentence row].
Proof.
  intros row.
  destruct (reliability_sentence_iff_supply_risk
              (rel_map (map score Sample.roster))
              (lt_map (map score Sample.roster)) Sample.yeast) as [H _].
  apply H. reflexivity.
Defined.

(** ** The two simulations *)

Lemma lookup_name_in_column {A : Type} (f : A -> string) (l : list A) (i : nat) (x : A) :
  l !! i = Some x -> f x ∈ map f l.
Proof.
  intros H. apply list_elem_of_fmap. exists x. split; [reflexivity |].
  apply list_elem_of_lookup. eauto.
Qed.

Lemma apply_sim_delay_lookup (sim_delay : bool) (ss : list SupplierRecord)
    (i : nat) (s : SupplierRecord) :
  ss !! i = Some s ->
  apply_sim_delay sim_delay ss !! i
  = Some (if sim_delay && String.eqb (supplier_name s) "Supplier B" then
            mkSupplier (supplier_id s) (supplier_name s) (total_deliveries s)
              (cclip_lower 0 (csub (on_time_deliveries s) (Some 2)))
              (avg_lead_time_days s) (price_index s) (priority s) (is_backup s)
          else s).
Proof.
  intros Hi. unfold apply_sim_delay. destruct sim_delay; [| exact Hi].
  cbn [andb]. destruct (bool_decide _) eqn:Hin.
  - change (map ?f ss) with (f <$> ss). rewrite list_lookup_fmap, Hi. reflexivity.
  - apply bool_decide_eq_false in Hin.
    destruct (String.eqb_spec (supplier_name s) "Supplier B") as [Heq | Hne];
      [| exact Hi].
    exfalso. apply Hin. rewrite <- Heq.
    apply (lookup_name_in_column supplier_name ss i s Hi).
Qed.

(** X11: the delay simulation keeps the number of rows and every column but
    [on_time_deliveries]; it changes that column only when it is switched
    on and only in the rows named "Supplier B", where the count drops by 2
    but not below 0 (a missing count stays missing). *)
Theorem sim_delay_changes_only_supplier_b (sim_delay : bool)
    (ss : list SupplierRecord) :
  length (apply_sim_delay sim_delay ss) = length ss /\
  forall i s, ss !! i = Some s ->
    exists s', apply_sim_delay sim_delay ss !! i = Some s' /\
      supplier_id s' = supplier_id s /\
      supplier_name s' = supplier_name s /\
      total_deliveries s' = total_deliveries s /\
      avg_lead_time_days s' = avg_lead_time_days s /\
      price_index s' = price_index s /\
      priority s' = priority s /\
      is_backup s' = is_backup s /\
      on_time_deliveries s'
      = (if sim_delay && String.eqb (supplier_name s) "Supplier B"
         then match on_time_deliveries s with
              | Some o => Some (if Qltb (o - 2) 0 then 0 else o - 2)
              | None => None
              end
         else on_time_deliveries s).
Proof.
  split.
  - unfold apply_sim_delay.
    destruct (sim_delay && bool_decide _); [apply length_map | reflexivity].
  - intros i s Hi. eexists. split; [apply (apply_sim_delay_lookup _ _ _ _ Hi) |].
    destruct (sim_delay && String.eqb (supplier_name s) "Supplier B");
      repeat split; try reflexivity.
    cbn [on_time_deliveries]. destruct (on_time_deliveries s); reflexivity.
Qed.

Lemma sim_delay_changes_only_supplier_b_witness :
  exists s', apply_sim_delay true Sample.roster !! 1%nat = Some s' /\
             on_time_deliveries s' = Some (18 - 2) /\
             total_deliveries s' = Some 20.
Proof.
  destruct (sim_delay_changes_only_supplier_b true Sample.roster) as [_ H].
  destruct (H 1%nat Sample.supplier_b eq_refl)
    as (s' & Hs & _ & _ & Htot & _ & _ & _ & _ & Hon).
  exists s'. split; [exact Hs |]. split; [exact Hon | exact Htot].
Defined.

(** X12: with the delay simulation on, a "Supplier B" row with a positive total
    and a non-negative on-time count never gains reliability; it loses
    exactly [200 / total_deliveries] points when it had at least 2 on-time
    deliveries, and ends at 0 otherwise. *)
Theorem sim_delay_lowers_reliability (ss : list SupplierRecord) (i : nat)
    (s s' : SupplierRecord) (o t : Q) :
  ss !! i = Some s -> apply_sim_delay true ss !! i = Some s' ->
  supplier_name s = "Supplier B" ->
  on_time_deliveries s = Some o -> total_deliveries s = Some t ->
  0 < t -> 0 <= o ->
  0 <= reliability_pct s' <= reliability_pct s /\
  (2 <= o -> reliability_pct s' == reliability_pct s - 200 / t) /\
  (o < 2 -> reliability_pct s' == 0).
Proof.
  intros Hi Hi' Hname Ho Ht Hpos Hnn.
  rewrite (apply_sim_delay_lookup true ss i s Hi) in Hi'.
  rewrite Hname in Hi'. cbn [andb] in Hi'.
  change (String.eqb "Supplier B" "Supplier B") with true in Hi'.
  injection Hi' as <-.
  assert (~ t == 0) as Hnz by (intros Hz; lra).
  rewrite (reliability_pct_ratio s o t Ho Ht Hnz).
  rewrite Ho. cbn [csub cclip_lower fmap option_fmap option_map].
  unfold clip_lower.
  destruct (Qltb (o - 2) 0) eqn:E; [apply Qltb_lt in E | apply Qltb_ge in E].
  - match goal with
    | |- context [reliability_pct ?x] =>
        rewrite (reliability_pct_ratio x 0 t eq_refl Ht Hnz)
    end.
    assert (0 <= o / t) as Hq by (apply Qle_shift_div_l; [assumption | lra]).
    assert (0 / t == 0) as Hz by (unfold Qdiv; ring).
    rewrite Hz. set (q := o / t) in *.
    split; [split; lra |]. split; [intros; exfalso; lra | intros; ring].
  - match goal with
    | |- context [reliability_pct ?x] =>
        rewrite (reliability_pct_ratio x (o - 2) t eq_refl Ht Hnz)
    end.
    assert ((o - 2) / t == o / t - 2 / t) as Hsplit by (field; exact Hnz).
    assert (200 / t == 100 * (2 / t)) as H200 by (field; exact Hnz).
    assert (0 <= (o - 2) / t) as Hq by (apply Qle_shift_div_l; [assumption | lra]).
    assert (0 <= 2 / t) as Hd by (apply Qle_shift_div_l; [assumption | lra]).
    rewrite H200. rewrite Hsplit in *.
    set (q := o / t) in *. set (d := 2 / t) in *.
    split; [split; lra |]. split; [intros; ring | intros; exfalso; lra].
Qed.

Lemma sim_delay_lowers_reliability_witness :
  exists s', apply_sim_delay true Sample.roster !! 1%nat = Some s' /\
             reliability_pct s' == reliability_pct Sample.supplier_b - 200 / 20.
Proof.
  eexists. split; [reflexivity |].
  apply (sim_delay_lowers_reliability Sample.roster 1 Sample.supplier_b _ 18 20);
    try reflexivity; discriminate.
Defined.

(** [.round(2)] moves a number by at most 0.005. *)
Lemma round2_error (x : Q) : x - (1 # 200) <= round2 x <= x + (1 # 200).
Proof.
  unfold round2. pose proof (round_half_even_error (x * 100)) as [Hlo Hhi].
  set (n := inject_Z (round_half_even (x * 100))) in *.
  assert (n / 100 == n * (1 # 100)) as -> by (unfold Qdiv; reflexivity).
  lra.
Qed.

Lemma apply_sim_demand_spike_lookup (sim_demand_spike : bool)
    (rs : list InventoryRecord) (i : nat) (r : InventoryRecord) :
  rs !! i = Some r ->
  apply_sim_demand_spike sim_demand_spike rs !! i
  = Some (if sim_demand_spike && String.eqb (material r) "Flour" then
            mkInventory (material r) (current_stock r) (safety_stock r)
              (round2 <$> cmul (avg_daily_usage r) (Some (13 # 10)))
              (primary_supplier r) (backup_supplier r) (lead_time_days r)
          else r).
Proof.
  intros Hi. unfold apply_sim_demand_spike. destruct sim_demand_spike; [| exact Hi].
  cbn [andb]. destruct (bool_decide _) eqn:Hin.
  - change (map ?f rs) with (f <$> rs). rewrite list_lookup_fmap, Hi. reflexivity.
  - apply bool_decide_eq_false in Hin.
    destruct (String.eqb_spec (material r) "Flour") as [Heq | Hne]; [| exact Hi].
    exfalso. apply Hin. rewrite <- Heq.
    apply (lookup_name_in_column material rs i r Hi).
Qed.

(** X13: the demand-spike simulation keeps the number of rows and every column
    but [avg_daily_usage]; it changes that column only when it is switched
    on and only in the rows of the material "Flour", where the new usage is
    within 0.005 of 1.3 times the old one (a missing usage stays missing). *)
Theorem sim_demand_spike_changes_only_flour (sim_demand_spike : bool)
    (rs : list InventoryRecord) :
  length (apply_sim_demand_spike sim_demand_spike rs) = length rs /\
  forall i r, rs !! i = Some r ->
    exists r', apply_sim_demand_spike sim_demand_spike rs !! i = Some r' /\
      material r' = material r /\
      current_stock r' = current_stock r /\
      safety_stock r' = safety_stock r /\
      primary_supplier r' = primary_supplier r /\
      backup_supplier r' = backup_supplier r /\
      lead_time_days r' = lead_time_days r /\
      (sim_demand_spike && String.eqb (material r) "Flour" = false ->
       avg_daily_usage r' = avg_daily_usage r) /\
      (sim_demand_spike && String.eqb (material r) "Flour" = true ->
       match avg_daily_usage r with
       | Some u => exists u', avg_daily_usage r' = Some u' /\
                              u * (13 # 10) - (1 # 200) <= u' <= u * (13 # 10) + (1 # 200)
       | None => avg_daily_usage r' = None
       end).
Proof.
  split.
  - unfold apply_sim_demand_spike.
    destruct (sim_demand_spike && bool_decide _); [apply length_map | reflexivity].
  - intros i r Hi. eexists.
    split; [apply (apply_sim_demand_spike_lookup _ _ _ _ Hi) |].
    destruct (sim_demand_spike && String.eqb (material r) "Flour");
      repeat split; try reflexivity; try discriminate.
    intros _. cbn [avg_daily_usage].
    destruct (avg_daily_usage r) as [u|]; [| reflexivity].
    eexists. split; [reflexivity |]. apply round2_error.
Qed.

Lemma sim_demand_spike_changes_only_flour_witness :
  exists r' u', apply_sim_demand_spike true [Sample.sugar; Sample.flour] !! 1%nat
                = Some r' /\
                avg_daily_usage r' = Some u' /\
                10 * (13 # 10) - (1 # 200) <= u' <= 10 * (13 # 10) + (1 # 200).
Proof.
  destruct (sim_demand_spike_changes_only_flour true [Sample.sugar; Sample.flour])
    as [_ H].
  destruct (H 1%nat Sample.flour eq_refl)
    as (r' & Hr & _ & _ & _ & _ & _ & _ & _ & Hu).
  destruct (Hu eq_refl) as (u' & Hu' & Hb).
  exists r', u'. split; [exact Hr |]. split; [exact Hu' | exact Hb].
Defined.

(** ** The output of a run *)

Lemma Zsum_nonneg (l : list Z) :
  Forall (fun z => (0 <= z)%Z) l ->
  (0 <= Zsum l)%Z /\ (Zsum l = 0%Z <-> Forall (fun z => z = 0%Z) l).
Proof.
  induction 1 as [| z l Hz Hl [IH1 IH2]].
  - split; [reflexivity | split; [constructor | reflexivity]].
  - change (Zsum (z :: l)) with (z + Zsum l)%Z. split; [lia |]. split.
    + intros Hsum. constructor; [lia | apply IH2; lia].
    + intros Hall. inversion Hall as [| ? ? Hz0 Hl0]; subst.
      apply IH2 in Hl0. lia.
Qed.

Lemma Zsum_member_le (l : list Z) :
  Forall (fun z => (0 <= z)%Z) l -> forall x, x ∈ l -> (x <= Zsum l)%Z.
Proof.
  induction 1 as [| z l Hz Hl IH]; intros x Hx.
  - inversion Hx.
  - change (Zsum (z :: l)) with (z + Zsum l)%Z.
    pose proof (proj1 (Zsum_nonneg l Hl)) as H0.
    apply elem_of_cons in Hx as [-> | Hx]; [lia |].
    specialize (IH x Hx). lia.
Qed.

Section EngineProperties.
Variable format_1f : Q -> string.
Variable format_float : option Q -> string.

(** X14: the engine produces one scored row per supplier and one health row and
    one recommendation per inventory row, in the order of the input: the
    supplier KPI is the number of supplier rows, and the recommendation list
    names the materials in input order. *)
Theorem engine_keeps_rows_in_order (suppliers : list SupplierRecord)
    (inventory : list InventoryRecord) :
  let out := engine format_1f format_float suppliers inventory in
  map sup (out_suppliers out) = suppliers /\
  kpi_suppliers out = length suppliers /\
  map (fun p => row_material p.1) (out_inventory out) = map material inventory /\
  map fst (out_recommendations out) = map material inventory /\
  map snd (out_recommendations out) = map snd (out_inventory out).
Proof.
  unfold engine.
  cbn [out_suppliers kpi_suppliers out_inventory out_recommendations].
  rewrite !map_map, length_map. cbn [fst snd sup score].
  repeat split; try reflexivity.
  - induction suppliers as [| s l IH]; [reflexivity |].
    cbn [map]. f_equal. exact IH.
Qed.

(** X15: the at-risk KPI counts rows and cannot exceed their number.  The
    total suggested reorder is an int64 sum: when the rounded shortfalls of
    the inventory rows add up to less than 2^63 it is their exact sum, it
    is not negative, and it is 0 exactly when every row's [reorder_qty] is
    0. *)
Theorem engine_kpis_bounded (suppliers : list SupplierRecord)
    (inventory : list InventoryRecord) :
  let out := engine format_1f format_float suppliers inventory in
  let leads := lt_map (map score suppliers) in
  (kpi_at_risk out <= length inventory)%nat /\
  ((Zsum (map (rounded_shortfall leads) inventory) < 2 ^ 63)%Z ->
   kpi_total_reorder out = Zsum (map (rounded_shortfall leads) inventory) /\
   (0 <= kpi_total_reorder out)%Z /\
   (kpi_total_reorder out = 0%Z <->
    forall p, p ∈ out_inventory out -> row_reorder_qty p.1 = 0%Z)).
Proof.
  unfold engine.
  cbn [kpi_at_risk kpi_total_reorder out_inventory].
  set (rels := rel_map (map score suppliers)).
  set (leads := lt_map (map score suppliers)).
  set (rows := map (fun row => (row, recommend format_1f format_float row))
                   (map (health rels leads) inventory)).
  cbv zeta. split.
  - etransitivity; [apply length_filter |].
    unfold rows. rewrite !length_map. reflexivity.
  - intros Hfit.
    assert (Forall (fun z => (0 <= z)%Z) (map (rounded_shortfall leads) inventory))
      as Hnn.
    { apply Forall_fmap, Forall_forall. intros r _.
      apply rounded_shortfall_nonneg. }
    assert (map (fun p => row_reorder_qty p.1) rows
            = map (rounded_shortfall leads) inventory) as Hqty.
    { unfold rows. rewrite !map_map. cbn [fst health row_reorder_qty].
      apply map_ext_in. intros r Hr. apply reorder_qty_in_range.
      pose proof (Zsum_member_le _ Hnn (rounded_shortfall leads r)) as Hle.
      assert (rounded_shortfall leads r <= Zsum (map (rounded_shortfall leads) inventory))%Z
        by (apply Hle, list_elem_of_In, in_map, Hr).
      lia. }
    destruct (Zsum_nonneg _ Hnn) as [H0 Hiff].
    assert (int64_sum (map (fun p => row_reorder_qty p.1) rows)
            = Zsum (map (rounded_shortfall leads) inventory)) as Hsum.
    { unfold int64_sum. rewrite Hqty. apply wrap_int64_in_range.
      change (2 ^ 63)%Z with 9223372036854775808%Z in *. lia. }
    rewrite Hsum. split; [reflexivity | split; [exact H0 |]].
    rewrite Hiff, <- Hqty, Forall_fmap, Forall_forall. reflexivity.
Qed.
End EngineProperties.

Lemma Qsum_bounds (a b : Q) (l : list Q) :
  Forall (fun x => a <= x <= b) l ->
  a * inject_Z (Z.of_nat (length l)) <= Qsum l
  /\ Qsum l <= b * inject_Z (Z.of_nat (length l)).
Proof.
  induction 1 as [| x l [Hlo Hhi] Hl [IH1 IH2]].
  - change (inject_Z (Z.of_nat (length (@nil Q)))) with 0.
    change (Qsum []) with 0. split; lra.
  - change (Qsum (x :: l)) with (x + Qsum l).
    change (length (x :: l)) with (S (length l)).
    rewrite Nat2Z.inj_succ, <- Z.add_1_r, inject_Z_plus.
    change (inject_Z 1) with 1.
    set (n := inject_Z (Z.of_nat (length l))) in *. split; lra.
Qed.

(** X16: the average-reliability KPI is NaN exactly when there is no supplier
    row; when every supplier row has consistent delivery counts it lies
    between 0 and 100. *)
Theorem mean_reliability_kpi (format_1f : Q -> string)
    (format_float : option Q -> string) (suppliers : list SupplierRecord)
    (inventory : list InventoryRecord) :
  let out := engine format_1f format_float suppliers inventory in
  (kpi_avg_reliability out = None <-> suppliers = []) /\
  (suppliers <> [] ->
   Forall (fun s => forall o t, on_time_deliveries s = Some o ->
                                total_deliveries s = Some t ->
                                ~ t == 0 -> 0 <= o <= t) suppliers ->
   exists m, kpi_avg_reliability out = Some m /\ 0 <= m <= 100).
Proof.
  unfold engine. cbn [kpi_avg_reliability]. rewrite map_map.
  cbn [score sup_reliability_pct]. split.
  - destruct suppliers; split; intros H; try reflexivity; discriminate H.
  - intros Hne Hall.
    destruct suppliers as [| s l]; [contradiction |].
    set (pcts := map (fun x => reliability_pct x) (s :: l)).
    assert (Forall (fun x => 0 <= x <= 100) pcts) as Hb.
    { unfold pcts. apply Forall_fmap. eapply Forall_impl; [exact Hall |].
      intros x Hx. apply reliability_pct_in_range_bounds_aux. exact Hx. }
    destruct (Qsum_bounds 0 100 pcts Hb) as [Hlo Hhi].
    assert (0 < inject_Z (Z.of_nat (length pcts))) as Hn.
    { unfold pcts. cbn [map length]. rewrite Nat2Z.inj_succ, <- Z.add_1_r.
      rewrite inject_Z_plus. change (inject_Z 1) with 1.
      assert (0 <= inject_Z (Z.of_nat (length (map (fun x => reliability_pct x) l)))).
      { change 0 with (inject_Z 0). rewrite <- Zle_Qle. lia. }
      lra. }
    exists (Qsum pcts / inject_Z (Z.of_nat (length pcts))).
    split; [reflexivity |]. split.
    + apply Qle_shift_div_l; [exact Hn | lra].
    + apply Qle_shift_div_r; [exact Hn | lra].
Qed.

Lemma mean_reliability_kpi_witness :
  exists m,
    kpi_avg_reliability
      (engine Sample.show_1f Sample.show_float Sample.roster [Sample.flour])
    = Some m /\ 0 <= m <= 100.
Proof.
  apply (mean_reliability_kpi Sample.show_1f Sample.show_float Sample.roster
           [Sample.flour]); [discriminate |].
  unfold Sample.roster.
  constructor; [| constructor; [| constructor]];
    intros o t Ho Ht _; simpl in Ho, Ht;
    injection Ho as <-; injection Ht as <-; split; discriminate.
Defined.

(** X17: with complete headers and no rows at all, as with the fallback tables
    used when the default files cannot be read, the run is not stopped: it
    renders empty tables, zero counts and a NaN average. *)
Theorem run_on_empty_tables (format_1f : Q -> string)
    (format_float : option Q -> string) (sim_delay sim_demand_spike : bool)
    (suppliers : frame SupplierRecord) (inventory : frame InventoryRecord) :
  missing_columns required_sup_cols (columns suppliers) = [] ->
  missing_columns required_inv_cols (columns inventory) = [] ->
  rows suppliers = [] -> rows inventory = [] ->
  run format_1f format_float sim_delay sim_demand_spike suppliers inventory
  = Rendered {| out_suppliers := [];
                out_inventory := [];
                kpi_suppliers := 0;
                kpi_avg_reliability := None;
                kpi_at_risk := 0;
                kpi_total_reorder := 0;
                out_recommendations := [] |}.
Proof.
  intros Hs Hi Hrs Hri. unfold run.
  apply issubset_missing_columns in Hs, Hi. rewrite Hs, Hi, Hrs, Hri.
  destruct sim_delay, sim_demand_spike; reflexivity.
Qed.

Lemma run_on_empty_tables_witness :
  run Sample.show_1f Sample.show_float true true
      default_suppliers_fallback default_inventory_fallback
  = Rendered (mkOutput [] [] 0 None 0 0 []).
Proof.
  apply (run_on_empty_tables Sample.show_1f Sample.show_float true true
           default_suppliers_fallback default_inventory_fallback);
    reflexivity.
Defined.

Lemma engine_kpis_bounded_witness :
  kpi_total_reorder
    (engine Sample.show_1f Sample.show_float Sample.roster
            [Sample.sugar; Sample.flour]) = 30%Z.
Proof.
  destruct (engine_kpis_bounded Sample.show_1f Sample.show_float Sample.roster
              [Sample.sugar; Sample.flour]) as [_ H].
  destruct H as [Heq _]; [reflexivity |].
  rewrite Heq. reflexivity.
Defined.
